(** * gamepad_mapper: a shallow embedding of [src/gamepad_mapper.py]

    The Python class [GamepadMapper] is embedded method by method.  Values
    read from the configuration file are JSON values, exceptions are an
    explicit result type, and everything the program does to the outside
    (console, clock, keyboard injector, configuration file) is threaded
    through a [world] that records a chronological trace of effects.

    Python floats are modelled by exact rationals; NaN and the infinities
    are outside the model. *)

From Stdlib Require Import QArith Qabs Qround Ascii String.
From stdpp Require Import gmap strings list.

Close Scope Q_scope.
Open Scope string_scope.

(** ** JSON values: what [json.load] returns and [json.dump] accepts *)

(** A Python [dict] keeps insertion order and [json.dump] prints in that
    order, so objects are association lists.  [JFloat m e] is the decimal
    [m * 10^-e]. *)
#[warnings="-register-all"]
Inductive json : Type :=
| JNull
| JBool (b : bool)
| JInt (n : Z)
| JFloat (m : Z) (e : nat)
| JStr (s : string)
| JArr (xs : list json)
| JObj (kvs : list (string * json)).

(** [d.get(k)] on the items of a dict. *)
Fixpoint dict_get (kvs : list (string * json)) (k : string) : option json :=
  match kvs with
  | [] => None
  | (k', v) :: rest => if String.eqb k k' then Some v else dict_get rest k
  end.

(** [d[k] = v]: an existing key keeps its position. *)
Fixpoint dict_set (kvs : list (string * json)) (k : string) (v : json)
  : list (string * json) :=
  match kvs with
  | [] => [(k, v)]
  | (k', v') :: rest =>
      if String.eqb k k' then (k, v) :: rest else (k', v') :: dict_set rest k v
  end.

(** Python truthiness, as used by [not x]. *)
Definition truthy (j : json) : bool :=
  match j with
  | JNull => false
  | JBool b => b
  | JInt n => negb (n =? 0)%Z
  | JFloat m _ => negb (m =? 0)%Z
  | JStr s => negb (String.eqb s "")
  | JArr xs => match xs with [] => false | _ => true end
  | JObj kvs => match kvs with [] => false | _ => true end
  end.

(** The numeric value of a JSON value that Python arithmetic accepts
    ([bool] is a subclass of [int]). *)
Definition as_number (j : json) : option Q :=
  match j with
  | JBool b => Some (if b then 1 else 0)%Q
  | JInt n => Some (inject_Z n)
  | JFloat m e => Some (Qmake m (Z.to_pos (10 ^ Z.of_nat e)))
  | _ => None
  end.

Definition Qlt_bool (x y : Q) : bool := negb (Qle_bool y x).

(** ** Exceptions and results *)

Inductive exn : Type :=
| TypeError
| AttributeError
| ZeroDivisionError
| ValueError
| KeyError
| PermissionError
| FileNotFoundError
| JSONDecodeError
| UnicodeDecodeError
| RecursionError
| OverflowError
| PygameError
| InjectorError.

Inductive result (A : Type) : Type :=
| Ok (a : A)
| Raise (e : exn).
Arguments Ok {A} a.
Arguments Raise {A} e.

(** [cfg.get(k, default)]: only a dict has the method. *)
Definition py_get (cfg : json) (k : string) (default : json) : result json :=
  match cfg with
  | JObj kvs => Ok (match dict_get kvs k with Some v => v | None => default end)
  | _ => Raise AttributeError
  end.

(** [needle in hay] on strings: substring search. *)
Fixpoint str_contains (needle hay : string) : bool :=
  String.prefix needle hay ||
  match hay with
  | EmptyString => false
  | String _ rest => str_contains needle rest
  end.

(** [name in container], for a string [name]. *)
Definition py_in (name : string) (container : json) : result bool :=
  match container with
  | JObj kvs => Ok (match dict_get kvs name with Some _ => true | None => false end)
  | JArr xs =>
      Ok (existsb (fun x => match x with JStr s => String.eqb s name | _ => false end) xs)
  | JStr s => Ok (str_contains name s)
  | _ => Raise TypeError
  end.

(** [container[name]], for a string [name]. *)
Definition py_subscript (container : json) (name : string) : result json :=
  match container with
  | JObj kvs =>
      match dict_get kvs name with Some v => Ok v | None => Raise KeyError end
  | _ => Raise TypeError
  end.

(** ** Keys of the injector ([pynput.keyboard.Key]) *)

Module Key.
Inductive t : Type :=
| enter | esc | tab | f11 | f12 | ctrl | shift | alt
| up | down | left | right
| home | end_ | page_up | page_down | insert | delete | backspace.
End Key.

(** What is handed to [Controller.press]: a member of [Key], or the value
    itself (a character, or whatever the configuration held). *)
Inductive key : Type :=
| Named (k : Key.t)
| Lit (j : json).

(** ** Effects and the world *)

Inductive message : Type :=
| MsgLoadError
| MsgSaveError
| MsgFoundGamepad (name : string)
| MsgKeyError (key_string : json)
| MsgButtonPressed (button_name : string) (key_mapping : json)
| MsgConnected (name : string)
| MsgMappingsHeader
| MsgMapping (button : string) (k : json)
| MsgExitHint
| MsgNoGamepad.

Inductive effect : Type :=
| EPrint (m : message)
| ESleep (seconds : Q)
| EPress (k : key)
| ERelease (k : key)
| EScan (names : list string).

(** The configuration file (absent, or its text) with its permissions, the
    behaviour of the injector, and the effects performed so far, oldest
    first. *)
Record world : Type := World {
  fs_file : option string;
  fs_readable : bool;
  fs_writable : bool;
  press_raises : key -> bool;
  release_raises : key -> bool;
  trace : list effect
}.

Definition log (e : effect) (w : world) : world :=
  World (fs_file w) (fs_readable w) (fs_writable w)
        (press_raises w) (release_raises w) (trace w ++ [e]).

Definition set_file (text : string) (w : world) : world :=
  World (Some text) (fs_readable w) (fs_writable w)
        (press_raises w) (release_raises w) (trace w).

(** ** Computations: state passing over the world, with exceptions *)

Definition M (A : Type) : Type := world -> result A * world.

Definition ret {A} (a : A) : M A := fun w => (Ok a, w).

Definition bind {A B} (c : M A) (k : A -> M B) : M B :=
  fun w => match c w with
           | (Ok a, w') => k a w'
           | (Raise e, w') => (Raise e, w')
           end.

Definition raise {A} (e : exn) : M A := fun w => (Raise e, w).

Definition lift {A} (r : result A) : M A := fun w => (r, w).

(** [try: body except Exception: handler] *)
Definition try_except {A} (body : M A) (handler : exn -> M A) : M A :=
  fun w => match body w with
           | (Ok a, w') => (Ok a, w')
           | (Raise e, w') => handler e w'
           end.

Declare Scope py_scope.
Delimit Scope py_scope with py.
Notation "x <- c ;; k" := (bind c (fun x => k))
  (at level 100, c at next level, right associativity) : py_scope.
Notation "c ;; k" := (bind c (fun _ => k))
  (at level 100, right associativity) : py_scope.
Open Scope py_scope.

Definition print (m : message) : M unit := fun w => (Ok tt, log (EPrint m) w).

(** The length of a sleep in nanoseconds, rounded away from zero, as
    [time.sleep] computes it before anything else. *)
Definition nanoseconds (seconds : Q) : Z :=
  let ns := (seconds * 1000000000)%Q in
  if Qlt_bool ns 0 then Qfloor ns else Qceiling ns.

(** [time.sleep(seconds)]: the nanoseconds must fit the signed 64-bit
    time type ([OverflowError] beyond about 9.2e9 seconds either way), and
    only then is a negative length rejected.  The bound is decided on the
    exact length; the interpreter decides it on the product rounded to a
    double, which can differ within a microsecond of the bound. *)
Definition sleep (seconds : Q) : M unit :=
  fun w =>
    let ns := nanoseconds seconds in
    if (ns <? - 9223372036854775808)%Z || (9223372036854775808 <=? ns)%Z
    then (Raise OverflowError, w)
    else if Qlt_bool seconds 0 then (Raise ValueError, w)
    else (Ok tt, log (ESleep seconds) w).

Definition controller_press (k : key) : M unit :=
  fun w => (if press_raises w k then Raise InjectorError else Ok tt,
            log (EPress k) w).

Definition controller_release (k : key) : M unit :=
  fun w => (if release_raises w k then Raise InjectorError else Ok tt,
            log (ERelease k) w).

(** ** Key Action Dispatcher *)

Definition key_mapping (key_string : string) : option key :=
  if String.eqb key_string "space" then Some (Lit (JStr " "))
  else if String.eqb key_string "return" then Some (Named Key.enter)
  else if String.eqb key_string "escape" then Some (Named Key.esc)
  else if String.eqb key_string "tab" then Some (Named Key.tab)
  else if String.eqb key_string "f11" then Some (Named Key.f11)
  else if String.eqb key_string "f12" then Some (Named Key.f12)
  else if String.eqb key_string "ctrl" then Some (Named Key.ctrl)
  else if String.eqb key_string "shift" then Some (Named Key.shift)
  else if String.eqb key_string "alt" then Some (Named Key.alt)
  else if String.eqb key_string "up" then Some (Named Key.up)
  else if String.eqb key_string "down" then Some (Named Key.down)
  else if String.eqb key_string "left" then Some (Named Key.left)
  else if String.eqb key_string "right" then Some (Named Key.right)
  else if String.eqb key_string "home" then Some (Named Key.home)
  else if String.eqb key_string "end" then Some (Named Key.end_)
  else if String.eqb key_string "page_up" then Some (Named Key.page_up)
  else if String.eqb key_string "page_down" then Some (Named Key.page_down)
  else if String.eqb key_string "insert" then Some (Named Key.insert)
  else if String.eqb key_string "delete" then Some (Named Key.delete)
  else if String.eqb key_string "backspace" then Some (Named Key.backspace)
  else None.

(** [key_mapping.get(key_string, key_string)]: a list or a dict is not
    hashable, every other value that is not a key of the table comes back
    unchanged. *)
Definition get_key_from_string (key_string : json) : result key :=
  match key_string with
  | JArr _ | JObj _ => Raise TypeError
  | JStr s => Ok (match key_mapping s with Some k => k | None => Lit (JStr s) end)
  | j => Ok (Lit j)
  end.

Definition press_key (key_string : json) : M unit :=
  k <- lift (get_key_from_string key_string) ;;
  try_except
    (controller_press k ;;
     sleep (1 # 20) ;;
     controller_release k)
    (fun _ => print (MsgKeyError key_string)).

Definition handle_button_press (config : json) (button_name : string) : M unit :=
  mappings <- lift (py_get config "button_mappings" (JObj [])) ;;
  present <- lift (py_in button_name mappings) ;;
  if present : bool then
    table <- lift (py_subscript config "button_mappings") ;;
    key_mapping <- lift (py_subscript table button_name) ;;
    print (MsgButtonPressed button_name key_mapping) ;;
    press_key key_mapping
  else ret tt.

(** ** Input Translator *)

Inductive event : Type :=
| JOYBUTTONDOWN (button : Z)
| JOYBUTTONUP (button : Z)
| JOYAXISMOTION (axis : Z) (value : Q)
| OTHER.

Definition get_button_name (button_id : Z) : option string :=
  match button_id with
  | 0 => Some "A"
  | 1 => Some "B"
  | 2 => Some "X"
  | 3 => Some "Y"
  | 4 => Some "LEFT_TRIGGER"
  | 5 => Some "RIGHT_TRIGGER"
  | 6 => Some "SELECT"
  | 7 => Some "START"
  | 8 => Some "LEFT_STICK"
  | 9 => Some "RIGHT_STICK"
  | _ => None
  end%Z.

Definition ascii_upper (c : ascii) : ascii :=
  let n := nat_of_ascii c in
  if (97 <=? n)%nat && (n <=? 122)%nat then ascii_of_nat (n - 32) else c.

Definition ascii_lower (c : ascii) : ascii :=
  let n := nat_of_ascii c in
  if (65 <=? n)%nat && (n <=? 90)%nat then ascii_of_nat (n + 32) else c.

Fixpoint str_map (f : ascii -> ascii) (s : string) : string :=
  match s with
  | EmptyString => EmptyString
  | String c rest => String (f c) (str_map f rest)
  end.

(** [s.upper()] and [s.lower()], on ASCII text. *)
Definition upper : string -> string := str_map ascii_upper.
Definition lower : string -> string := str_map ascii_lower.

(** The two dictionaries local to [run_gamepad_loop]. *)
Record session : Type := Session {
  button_states : gmap string bool;
  trigger_states : gmap string bool
}.

(** [button_states = {}] and
    [trigger_states = {"left": False, "right": False}]. *)
Definition fresh : session :=
  Session ∅ (<["right" := false]> (<["left" := false]> ∅)).

Definition set_button (name : string) (b : bool) (st : session) : session :=
  Session (<[name := b]> (button_states st)) (trigger_states st).

Definition set_trigger (name : string) (b : bool) (st : session) : session :=
  Session (button_states st) (<[name := b]> (trigger_states st)).

(** [abs(value) > threshold] where [threshold] came out of the
    configuration. *)
Definition abs_gt (value : Q) (threshold : json) : result bool :=
  match as_number threshold with
  | Some t => Ok (Qlt_bool t (Qabs value))
  | None => Raise TypeError
  end.

Definition get_trigger (name : string) (st : session) : result bool :=
  match trigger_states st !! name with
  | Some b => Ok b
  | None => Raise KeyError
  end.

(** The body of [for event in pygame.event.get()]. *)
Definition handle_event (config : json) (ev : event) (st : session) : M session :=
  match ev with
  | JOYBUTTONDOWN button =>
      match get_button_name button with
      | Some button_name =>
          if negb (String.eqb button_name "") then
            match button_states st !! button_name with
            | None =>
                handle_button_press config button_name ;;
                ret (set_button button_name true st)
            | Some _ => ret st
            end
          else ret st
      | None => ret st
      end
  | JOYBUTTONUP button =>
      match get_button_name button with
      | Some button_name =>
          if negb (String.eqb button_name "") then
            ret (set_button button_name false st)
          else ret st
      | None => ret st
      end
  | JOYAXISMOTION axis value =>
      if (axis =? 2)%Z || (axis =? 3)%Z then
        let trigger_name := if (axis =? 2)%Z then "left" else "right" in
        threshold <- lift (py_get config "trigger_threshold" (JFloat 5 1)) ;;
        above <- lift (abs_gt value threshold) ;;
        if above : bool then
          held <- lift (get_trigger trigger_name st) ;;
          if negb held then
            handle_button_press config (upper trigger_name ++ "_TRIGGER") ;;
            ret (set_trigger trigger_name true st)
          else ret st
        else ret (set_trigger trigger_name false st)
      else if (axis =? 0)%Z || (axis =? 1)%Z then
        let threshold := (1 # 2)%Q in
        if Qlt_bool threshold (Qabs value) then
          if (axis =? 0)%Z then
            if Qlt_bool threshold value then
              handle_button_press config "DPAD_RIGHT" ;; ret st
            else if Qlt_bool value (- threshold) then
              handle_button_press config "DPAD_LEFT" ;; ret st
            else ret st
          else if (axis =? 1)%Z then
            if Qlt_bool threshold value then
              handle_button_press config "DPAD_DOWN" ;; ret st
            else if Qlt_bool value (- threshold) then
              handle_button_press config "DPAD_UP" ;; ret st
            else ret st
          else ret st
        else ret st
      else ret st
  | OTHER => ret st
  end.

(** One batch of [pygame.event.get()], in arrival order. *)
Fixpoint handle_events (config : json) (evs : list event) (st : session)
  : M session :=
  match evs with
  | [] => ret st
  | ev :: rest =>
      st' <- handle_event config ev st ;;
      handle_events config rest st'
  end.

(** Whether [float(n)] fails: an int converts to a double unless it
    rounds to [2^1024] or beyond, that is from [2^1024 - 2^970] on. *)
Definition float_overflows (j : json) : bool :=
  match j with
  | JInt n => (2 ^ 1024 - 2 ^ 970 <=? Z.abs n)%Z
  | _ => false
  end.

(** [1.0 / self.config.get("polling_rate", 60)]: the divisor is converted
    to a float first, then tested for zero. *)
Definition poll_interval (config : json) : result Q :=
  match py_get config "polling_rate" (JInt 60) with
  | Ok rate =>
      match as_number rate with
      | Some r =>
          if float_overflows rate then Raise OverflowError
          else if Qeq_bool r 0 then Raise ZeroDivisionError
          else Ok (1 / r)%Q
      | None => Raise TypeError
      end
  | Raise e => Raise e
  end.

(** ** Mapper Controller *)

Record mapper : Type := Mapper {
  config : json;
  running : bool;
  gamepad : option Z
}.

Definition set_running (b : bool) (self : mapper) : mapper :=
  Mapper (config self) b (gamepad self).

Definition set_gamepad (i : Z) (self : mapper) : mapper :=
  Mapper (config self) (running self) (Some i).

Definition keywords : list string :=
  ["gamepad"; "controller"; "xbox"; "playstation"; "nintendo"].

Definition is_gamepad_name (name : string) : bool :=
  existsb (fun keyword => str_contains keyword (lower name)) keywords.

Fixpoint find_gamepad (names : list string) (i : Z) : option (Z * string) :=
  match names with
  | [] => None
  | name :: rest =>
      if is_gamepad_name name then Some (i, name)
      else find_gamepad rest (i + 1)%Z
  end.

(** [names] is what the joystick subsystem reports after being
    re-initialised. *)
Definition detect_gamepad (names : list string) : M (option Z) :=
  (fun w => (Ok tt, log (EScan names) w)) ;;
  match find_gamepad names 0 with
  | Some (i, name) => print (MsgFoundGamepad name) ;; ret (Some i)
  | None => ret None
  end.

(** How a loop of the program ends within the events the environment
    supplies: it returns, or it is still polling when they run out. *)
Inductive loop_exit : Type :=
| Returned
| Polling (st : session).

(** [while self.running: ...], one batch of events per iteration. *)
Fixpoint poll_loop (self : mapper) (batches : list (list event)) (st : session)
  : M loop_exit :=
  if running self then
    match batches with
    | [] => ret (Polling st)
    | evs :: rest =>
        st' <- handle_events (config self) evs st ;;
        seconds <- lift (poll_interval (config self)) ;;
        sleep seconds ;;
        poll_loop self rest st'
    end
  else ret Returned.

Definition py_items (j : json) : result (list (string * json)) :=
  match j with
  | JObj kvs => Ok kvs
  | _ => Raise AttributeError
  end.

Fixpoint print_all (ms : list message) : M unit :=
  match ms with
  | [] => ret tt
  | m :: rest => print m ;; print_all rest
  end.

Definition joystick_name (names : list string) (i : Z) : result string :=
  if (i <? 0)%Z then Raise PygameError
  else match names !! Z.to_nat i with
       | Some name => Ok name
       | None => Raise PygameError
       end.

(** [if not self.gamepad: return] is taken by [None] and by the index 0. *)
Definition run_gamepad_loop (self : mapper) (names : list string)
    (batches : list (list event)) : M loop_exit :=
  match gamepad self with
  | None => ret Returned
  | Some i =>
      if (i =? 0)%Z then ret Returned
      else
        name <- lift (joystick_name names i) ;;
        print (MsgConnected name) ;;
        print MsgMappingsHeader ;;
        mappings <- lift (py_get (config self) "button_mappings" (JObj [])) ;;
        items <- lift (py_items mappings) ;;
        print_all (map (fun '(button, k) => MsgMapping button k) items) ;;
        print MsgExitHint ;;
        poll_loop self batches fresh
  end.

(** Where the controller is when [start] returns or the environment's
    script ends. *)
Inductive run_state : Type :=
| Stopped
| Discovering
| Active (st : session).

(** The [while self.running] loop of [start]: [scans] gives the joystick
    names seen by each successive call of [detect_gamepad].  A run of
    [run_gamepad_loop] that returns has consumed no events. *)
Fixpoint discover_loop (self : mapper) (scans : list (list string))
    (batches : list (list event)) : M run_state :=
  if running self then
    match scans with
    | [] => ret Discovering
    | names :: rest =>
        gamepad_id <- detect_gamepad names ;;
        match gamepad_id with
        | Some i =>
            let self' := set_gamepad i self in
            r <- run_gamepad_loop self' names batches ;;
            match r with
            | Returned => discover_loop self' rest batches
            | Polling st => ret (Active st)
            end
        | None =>
            print MsgNoGamepad ;;
            sleep 2 ;;
            auto_restart <- lift (py_get (config self) "auto_restart" (JBool true)) ;;
            if negb (truthy auto_restart) then ret Stopped
            else discover_loop self rest batches
        end
    end
  else ret Stopped.

Definition start (self : mapper) (scans : list (list string))
    (batches : list (list event)) : M run_state :=
  discover_loop (set_running true self) scans batches.

(** ** Config Model *)

Definition default_config : json :=
  JObj [("button_mappings",
         JObj [("A", JStr "space");
               ("B", JStr "escape");
               ("X", JStr "return");
               ("Y", JStr "tab");
               ("START", JStr "f11");
               ("SELECT", JStr "f12");
               ("LEFT_TRIGGER", JStr "ctrl");
               ("RIGHT_TRIGGER", JStr "shift");
               ("DPAD_UP", JStr "up");
               ("DPAD_DOWN", JStr "down");
               ("DPAD_LEFT", JStr "left");
               ("DPAD_RIGHT", JStr "right")]);
        ("trigger_threshold", JFloat 5 1);
        ("polling_rate", JInt 60);
        ("auto_restart", JBool true)].

(** The [json] module.  [json_dump] is the text that
    [json.dump(config, f, indent=2)] writes.  [json_load] is [json.load(f)]
    on a file holding the given bytes: it reads and decodes the file and
    parses the text, and raises what the library raises
    ([UnicodeDecodeError] on bytes that do not decode, [JSONDecodeError] on
    text that is not JSON, [RecursionError] on nesting that is too deep,
    [ValueError] on an integer with too many digits). *)
Class JsonCodec : Type := {
  json_dump : json -> string;
  json_load : string -> result json
}.

(** [open(self.config_file, 'w')] followed by writing [text]. *)
Definition write_file (text : string) : M unit :=
  fun w => if fs_writable w then (Ok tt, set_file text w)
           else (Raise PermissionError, w).

(** [open(self.config_file, 'r')]: the file behind the handle, as the
    bytes it holds.  Nothing is read or decoded before [json.load(f)]. *)
Definition read_file : M string :=
  fun w => match fs_file w with
           | None => (Raise FileNotFoundError, w)
           | Some text =>
               if fs_readable w then (Ok text, w)
               else (Raise PermissionError, w)
           end.

Section Config.
Context `{JsonCodec}.

Definition save_config (cfg : json) : M unit :=
  try_except
    (write_file (json_dump cfg))
    (fun _ => print MsgSaveError).

Definition load_config : M json :=
  fun w =>
    match fs_file w with
    | None =>
        (save_config default_config ;;
         ret default_config) w
    | Some _ =>
        try_except
          (f <- read_file ;;
           lift (json_load f))
          (fun e =>
             match e with
             | JSONDecodeError | FileNotFoundError =>
                 print MsgLoadError ;; ret (JObj [])
             | _ => raise e
             end) w
    end.

(** [GamepadMapper.__init__] *)
Definition init : M mapper :=
  cfg <- load_config ;;
  ret (Mapper cfg false None).
End Config.

(** ** An executable [json] module

    [PyJson.codec] prints the way [json.dump(_, _, indent=2)] does and reads
    the way [json.load] does, on files taken as UTF-8 bytes.  Strings are
    kept as their UTF-8 bytes.  Floats are exact decimals: the literals
    [NaN], [Infinity] and [-Infinity], which the library reads as floats
    the model does not have, are not read, and a decimal is not rounded to
    a double.  The nesting depth at which the interpreter raises
    [RecursionError] depends on its version and on the frames in use; it is
    taken to be the default recursion limit. *)

Module PyJson.

Definition quote : ascii := ascii_of_nat 34.
Definition backslash : ascii := ascii_of_nat 92.
Definition newline : ascii := ascii_of_nat 10.

Definition chr (c : ascii) : string := String c EmptyString.

Fixpoint join (sep : string) (parts : list string) : string :=
  match parts with
  | [] => ""
  | [p] => p
  | p :: rest => p ++ sep ++ join sep rest
  end.

Fixpoint repeat_char (c : ascii) (n : nat) : string :=
  match n with
  | O => ""
  | S n => String c (repeat_char c n)
  end.

Definition spaces : nat -> string := repeat_char " ".

(** *** UTF-8 *)

Definition cont (c : ascii) : bool :=
  let n := nat_of_ascii c in (128 <=? n)%nat && (n <=? 191)%nat.

Definition between (lo hi : nat) (c : ascii) : bool :=
  let n := nat_of_ascii c in (lo <=? n)%nat && (n <=? hi)%nat.

(** The length of the well-formed UTF-8 sequence that starts [s], if
    any: no overlong form, no surrogate, nothing above U+10FFFF. *)
Definition utf8_head (s : string) : option nat :=
  match s with
  | EmptyString => None
  | String c0 rest =>
      let n := nat_of_ascii c0 in
      if (n <? 128)%nat then Some 1%nat
      else match rest with
           | String c1 rest1 =>
               if between 194 223 c0 && cont c1 then Some 2%nat
               else match rest1 with
                    | String c2 rest2 =>
                        if (((n =? 224)%nat && between 160 191 c1)
                            || (between 225 236 c0 && cont c1)
                            || ((n =? 237)%nat && between 128 159 c1)
                            || (between 238 239 c0 && cont c1))
                           && cont c2
                        then Some 3%nat
                        else match rest2 with
                             | String c3 _ =>
                                 if (((n =? 240)%nat && between 144 191 c1)
                                     || (between 241 243 c0 && cont c1)
                                     || ((n =? 244)%nat && between 128 143 c1))
                                    && cont c2 && cont c3
                                 then Some 4%nat
                                 else None
                             | EmptyString => None
                             end
                    | EmptyString => None
                    end
           | EmptyString => None
           end
  end.

Definition drop_chars (n : nat) (s : string) : string :=
  substring n (String.length s - n) s.

Fixpoint utf8_valid_go (fuel : nat) (s : string) : bool :=
  match fuel with
  | O => true
  | S fuel =>
      match s with
      | EmptyString => true
      | _ => match utf8_head s with
             | Some n => utf8_valid_go fuel (drop_chars n s)
             | None => false
             end
      end
  end.

Definition utf8_valid (s : string) : bool := utf8_valid_go (String.length s) s.

(** The code point of the sequence of [n] bytes that starts [s]. *)
Definition utf8_code (n : nat) (s : string) : N :=
  let byte i := match String.get i s with
                | Some c => N_of_ascii c
                | None => 0%N
                end in
  match n with
  | 2%nat => (byte 0%nat - 192) * 64 + (byte 1%nat - 128)
  | 3%nat => (byte 0%nat - 224) * 4096 + (byte 1%nat - 128) * 64
             + (byte 2%nat - 128)
  | 4%nat => (byte 0%nat - 240) * 262144 + (byte 1%nat - 128) * 4096
             + (byte 2%nat - 128) * 64 + (byte 3%nat - 128)
  | _ => byte 0%nat
  end%N.

(** The UTF-8 bytes of a code point (a lone surrogate gets the three
    bytes of its value). *)
Definition utf8_encode (u : N) : string :=
  (if u <? 128 then chr (ascii_of_N u)
   else if u <? 2048 then
     String (ascii_of_N (192 + u / 64)) (chr (ascii_of_N (128 + u mod 64)))
   else if u <? 65536 then
     String (ascii_of_N (224 + u / 4096))
       (String (ascii_of_N (128 + (u / 64) mod 64))
          (chr (ascii_of_N (128 + u mod 64))))
   else
     String (ascii_of_N (240 + u / 262144))
       (String (ascii_of_N (128 + (u / 4096) mod 64))
          (String (ascii_of_N (128 + (u / 64) mod 64))
             (chr (ascii_of_N (128 + u mod 64))))))%N.

(** *** Printing *)

Definition digit_char (d : N) : ascii := ascii_of_N (48 + d).

Fixpoint digits_go (fuel : nat) (n : N) (acc : string) : string :=
  match fuel with
  | O => acc
  | S fuel =>
      let acc' := String (digit_char (n mod 10)) acc in
      if (n / 10 =? 0)%N then acc' else digits_go fuel (n / 10)%N acc'
  end.

Definition str_of_N (n : N) : string :=
  digits_go (S (N.to_nat (N.log2 n))) n "".

Definition str_of_Z (z : Z) : string :=
  ((if (z <? 0)%Z then "-" else "") ++ str_of_N (Z.abs_N z))%string.

(** Digits without their trailing zeros. *)
Fixpoint strip_zeros (fuel : nat) (ds : string) : string :=
  match fuel with
  | O => ds
  | S fuel =>
      let n := String.length ds in
      if (1 <? n)%nat && String.eqb (substring (n - 1) 1 ds) "0"
      then strip_zeros fuel (substring 0 (n - 1) ds)
      else ds
  end.

(** [repr] of the float [m * 10^-e]: positional while the decimal point
    lies within the digits or at most 3 zeros before or 16 digits after
    their start, in exponent form otherwise. *)
Definition str_of_decimal (m : Z) (e : nat) : string :=
  if (m =? 0)%Z then "0.0"
  else
    let ds := str_of_N (Z.abs_N m) in
    let decpt := (Z.of_nat (String.length ds) - Z.of_nat e)%Z in
    let sig := strip_zeros (String.length ds) ds in
    let n := String.length sig in
    let body :=
      if (decpt <=? -4)%Z || (16 <? decpt)%Z then
        let x := (decpt - 1)%Z in
        let xs := str_of_N (Z.abs_N x) in
        substring 0 1 sig
          ++ (if (1 <? n)%nat then "." ++ substring 1 (n - 1) sig else "")
          ++ "e" ++ (if (x <? 0)%Z then "-" else "+")
          ++ (if (String.length xs <? 2)%nat then "0" else "") ++ xs
      else if (decpt <=? 0)%Z then
        "0." ++ repeat_char "0" (Z.to_nat (- decpt)) ++ sig
      else if (Z.of_nat n <=? decpt)%Z then
        sig ++ repeat_char "0" (Z.to_nat decpt - n) ++ ".0"
      else
        substring 0 (Z.to_nat decpt) sig ++ "."
          ++ substring (Z.to_nat decpt) (n - Z.to_nat decpt) sig in
    ((if (m <? 0)%Z then "-" else "") ++ body)%string.

Definition hex_char (d : N) : ascii :=
  (if d <? 10 then ascii_of_N (48 + d) else ascii_of_N (87 + d))%N.

(** [\uXXXX] for a value below [2^16]. *)
Definition u_escape (u : N) : string :=
  String backslash
    (String "u"
       (String (hex_char (u / 4096))
          (String (hex_char ((u / 256) mod 16))
             (String (hex_char ((u / 16) mod 16))
                (chr (hex_char (u mod 16)))))))%N.

(** What [ensure_ascii] prints for a code point. *)
Definition escape_code (u : N) : string :=
  (if u =? 34 then String backslash (chr quote)
   else if u =? 92 then String backslash (chr backslash)
   else if u =? 10 then String backslash "n"
   else if u =? 13 then String backslash "r"
   else if u =? 9 then String backslash "t"
   else if u =? 8 then String backslash "b"
   else if u =? 12 then String backslash "f"
   else if (32 <=? u) && (u <=? 126) then chr (ascii_of_N u)
   else if u <? 65536 then u_escape u
   else
     (u_escape (55296 + (u - 65536) / 1024)
        ++ u_escape (56320 + (u - 65536) mod 1024))%string)%N.

Fixpoint escape_go (fuel : nat) (s : string) : string :=
  match fuel with
  | O => ""
  | S fuel =>
      match s with
      | EmptyString => ""
      | _ =>
          let n := match utf8_head s with Some n => n | None => 1%nat end in
          (escape_code (utf8_code n s) ++ escape_go fuel (drop_chars n s))%string
      end
  end.

Definition escape (s : string) : string := escape_go (String.length s) s.

Definition str_of_string (s : string) : string :=
  String quote (escape s ++ chr quote).

Definition break (level : nat) : string :=
  String newline (spaces (2 * level)).

Fixpoint dump (level : nat) (j : json) : string :=
  match j with
  | JNull => "null"
  | JBool true => "true"
  | JBool false => "false"
  | JInt n => str_of_Z n
  | JFloat m e => str_of_decimal m e
  | JStr s => str_of_string s
  | JArr [] => "[]"
  | JArr xs =>
      "[" ++ break (S level)
          ++ join ("," ++ break (S level)) (map (dump (S level)) xs)
          ++ break level ++ "]"
  | JObj [] => "{}"
  | JObj kvs =>
      "{" ++ break (S level)
          ++ join ("," ++ break (S level))
               (map (fun kv => str_of_string (fst kv) ++ ": "
                                 ++ dump (S level) (snd kv)) kvs)
          ++ break level ++ "}"
  end%string.

Definition dumps (j : json) : string := dump 0 j.

(** *** Reading *)

Definition is_ws (c : ascii) : bool :=
  let n := nat_of_ascii c in
  (n =? 32)%nat || (n =? 9)%nat || (n =? 10)%nat || (n =? 13)%nat.

Definition is_digit (c : ascii) : bool :=
  let n := nat_of_ascii c in (48 <=? n)%nat && (n <=? 57)%nat.

Fixpoint skip_ws (s : string) : string :=
  match s with
  | String c rest => if is_ws c then skip_ws rest else s
  | EmptyString => s
  end.

(** The longest prefix of digits, and what follows it. *)
Fixpoint take_digits (s : string) : string * string :=
  match s with
  | String c rest =>
      if is_digit c then
        let '(ds, rest') := take_digits rest in (String c ds, rest')
      else ("", s)
  | EmptyString => ("", s)
  end.

Fixpoint N_of_digits (ds : string) (acc : N) : N :=
  match ds with
  | String c rest => N_of_digits rest (10 * acc + (N_of_ascii c - 48))%N
  | EmptyString => acc
  end.

(** The integer part: [0], or digits that do not start with [0]. *)
Definition take_int (s : string) : option (string * string) :=
  match s with
  | String c rest =>
      if Ascii.eqb c "0" then Some ("0", rest)
      else if is_digit c then Some (take_digits s)
      else None
  | EmptyString => None
  end.

(** [.digits], when at least one digit follows the point. *)
Definition take_frac (s : string) : option (string * string) :=
  match s with
  | String c rest =>
      if Ascii.eqb c "." then
        match take_digits rest with
        | (EmptyString, _) => None
        | (ds, rest') => Some (ds, rest')
        end
      else None
  | EmptyString => None
  end.

(** [e], an optional sign, and at least one digit. *)
Definition take_exp (s : string) : option (Z * string) :=
  match s with
  | String c rest =>
      if Ascii.eqb c "e" || Ascii.eqb c "E" then
        let '(neg, rest) :=
          match rest with
          | String d rest' =>
              if Ascii.eqb d "-" then (true, rest')
              else if Ascii.eqb d "+" then (false, rest')
              else (false, rest)
          | EmptyString => (false, rest)
          end in
        match take_digits rest with
        | (EmptyString, _) => None
        | (ds, rest') =>
            let n := Z.of_N (N_of_digits ds 0) in
            Some (if neg : bool then (- n)%Z else n, rest')
        end
      else None
  | EmptyString => None
  end.

(** Drop the trailing zeros of a decimal fraction. *)
Fixpoint normalise (m : Z) (e : nat) : Z * nat :=
  match e with
  | O => (m, O)
  | S e' => if (m mod 10 =? 0)%Z then normalise (m / 10)%Z e' else (m, e)
  end.

(** [sys.get_int_max_str_digits()] *)
Definition int_max_str_digits : nat := 4300.

(** A number: an [int] when it has neither fraction nor exponent (and
    then [int(...)] refuses more than 4300 digits), a float otherwise. *)
Definition parse_number (s : string) : result (json * string) :=
  let '(neg, s) :=
    match s with
    | String c rest => if Ascii.eqb c "-" then (true, rest) else (false, s)
    | EmptyString => (false, s)
    end in
  match take_int s with
  | None => Raise JSONDecodeError
  | Some (ip, s) =>
      let sign (z : Z) := if neg : bool then (- z)%Z else z in
      let '(fp, s1) := match take_frac s with
                       | Some (fp, s1) => (Some fp, s1)
                       | None => (None, s)
                       end in
      let '(ex, s2) := match take_exp s1 with
                       | Some (ex, s2) => (Some ex, s2)
                       | None => (None, s1)
                       end in
      match fp, ex with
      | None, None =>
          if (int_max_str_digits <? String.length ip)%nat then Raise ValueError
          else Ok (JInt (sign (Z.of_N (N_of_digits ip 0))), s2)
      | _, _ =>
          let fs := match fp with Some fs => fs | None => "" end in
          let x := match ex with Some x => x | None => 0%Z end in
          let ds := Z.of_N (N_of_digits (ip ++ fs) 0) in
          let scale := (Z.of_nat (String.length fs) - x)%Z in
          let '(m, e) :=
            if (scale <=? 0)%Z then ((ds * 10 ^ (- scale))%Z, O)
            else normalise ds (Z.to_nat scale) in
          Ok (JFloat (sign m) e, s2)
      end
  end.

Definition hex_value (c : ascii) : option N :=
  let n := N_of_ascii c in
  (if (48 <=? n) && (n <=? 57) then Some (n - 48)
   else if (97 <=? n) && (n <=? 102) then Some (n - 87)
   else if (65 <=? n) && (n <=? 70) then Some (n - 55)
   else None)%N.

(** Four hex digits, and what follows them. *)
Definition take_hex4 (s : string) : option (N * string) :=
  match s with
  | String h1 (String h2 (String h3 (String h4 rest))) =>
      match hex_value h1, hex_value h2, hex_value h3, hex_value h4 with
      | Some a, Some b, Some c, Some d =>
          Some (4096 * a + 256 * b + 16 * c + d, rest)%N
      | _, _, _, _ => None
      end
  | _ => None
  end.

(** A low surrogate escape that completes the high surrogate [u]. *)
Definition take_low_surrogate (u : N) (s : string) : option (N * string) :=
  if ((55296 <=? u) && (u <? 56320))%N then
    match s with
    | String b (String c rest) =>
        if Ascii.eqb b backslash && Ascii.eqb c "u" then
          match take_hex4 rest with
          | Some (v, rest') =>
              if ((56320 <=? v) && (v <? 57344))%N
              then Some (65536 + (u - 55296) * 1024 + (v - 56320), rest')%N
              else None
          | None => None
          end
        else None
    | _ => None
    end
  else None.

(** The characters of a string literal after its opening quote. *)
Fixpoint parse_string (fuel : nat) (s : string) : option (string * string) :=
  match fuel with
  | O => None
  | S fuel =>
      let continue (x : string) (tail : string) :=
        match parse_string fuel tail with
        | Some (str, r) => Some ((x ++ str)%string, r)
        | None => None
        end in
      match s with
      | EmptyString => None
      | String c rest =>
          if Ascii.eqb c quote then Some ("", rest)
          else if Ascii.eqb c backslash then
            match rest with
            | String d rest' =>
                if Ascii.eqb d quote then continue (chr quote) rest'
                else if Ascii.eqb d backslash then continue (chr backslash) rest'
                else if Ascii.eqb d "/" then continue "/" rest'
                else if Ascii.eqb d "b" then continue (chr (ascii_of_nat 8)) rest'
                else if Ascii.eqb d "f" then continue (chr (ascii_of_nat 12)) rest'
                else if Ascii.eqb d "n" then continue (chr (ascii_of_nat 10)) rest'
                else if Ascii.eqb d "r" then continue (chr (ascii_of_nat 13)) rest'
                else if Ascii.eqb d "t" then continue (chr (ascii_of_nat 9)) rest'
                else if Ascii.eqb d "u" then
                  match take_hex4 rest' with
                  | Some (u, tail) =>
                      match take_low_surrogate u tail with
                      | Some (cp, tail') => continue (utf8_encode cp) tail'
                      | None => continue (utf8_encode u) tail
                      end
                  | None => None
                  end
                else None
            | EmptyString => None
            end
          else if (nat_of_ascii c <? 32)%nat then None
          else continue (chr c) rest
      end
  end.

Definition expect (c : ascii) (s : string) : option string :=
  match s with
  | String d rest => if Ascii.eqb c d then Some rest else None
  | EmptyString => None
  end.

Definition expect_word (word : string) (v : json) (s : string)
  : result (json * string) :=
  if String.prefix word s
  then Ok (v, drop_chars (String.length word) s)
  else Raise JSONDecodeError.

(** [sys.getrecursionlimit()] *)
Definition recursion_limit : nat := 1000.

(** One value, then the members of an object or the elements of an array
    after the opening bracket.  [depth] is how many more arrays and
    objects may be entered; of two nested calls one consumes a character,
    so twice the length of the text bounds [fuel]. *)
Fixpoint parse_value (depth fuel : nat) (s : string) : result (json * string) :=
  match fuel with
  | O => Raise JSONDecodeError
  | S fuel =>
      match skip_ws s with
      | EmptyString => Raise JSONDecodeError
      | String c rest as s' =>
          if Ascii.eqb c "{" then
            match depth with
            | O => Raise RecursionError
            | S depth =>
                match expect "}" (skip_ws rest) with
                | Some r => Ok (JObj [], r)
                | None => parse_members depth fuel rest []
                end
            end
          else if Ascii.eqb c "[" then
            match depth with
            | O => Raise RecursionError
            | S depth =>
                match expect "]" (skip_ws rest) with
                | Some r => Ok (JArr [], r)
                | None => parse_elements depth fuel rest []
                end
            end
          else if Ascii.eqb c quote then
            match parse_string (String.length rest) rest with
            | Some (str, r) => Ok (JStr str, r)
            | None => Raise JSONDecodeError
            end
          else if Ascii.eqb c "n" then expect_word "null" JNull s'
          else if Ascii.eqb c "t" then expect_word "true" (JBool true) s'
          else if Ascii.eqb c "f" then expect_word "false" (JBool false) s'
          else parse_number s'
      end
  end
with parse_members (depth fuel : nat) (s : string) (acc : list (string * json))
  : result (json * string) :=
  match fuel with
  | O => Raise JSONDecodeError
  | S fuel =>
      match expect quote (skip_ws s) with
      | None => Raise JSONDecodeError
      | Some r =>
          match parse_string (String.length r) r with
          | None => Raise JSONDecodeError
          | Some (k, r) =>
              match expect ":" (skip_ws r) with
              | None => Raise JSONDecodeError
              | Some r =>
                  match parse_value depth fuel r with
                  | Raise e => Raise e
                  | Ok (v, r) =>
                      let acc' := dict_set acc k v in
                      match skip_ws r with
                      | String c r' =>
                          if Ascii.eqb c "," then parse_members depth fuel r' acc'
                          else if Ascii.eqb c "}" then Ok (JObj acc', r')
                          else Raise JSONDecodeError
                      | EmptyString => Raise JSONDecodeError
                      end
                  end
              end
          end
      end
  end
with parse_elements (depth fuel : nat) (s : string) (acc : list json)
  : result (json * string) :=
  match fuel with
  | O => Raise JSONDecodeError
  | S fuel =>
      match parse_value depth fuel s with
      | Raise e => Raise e
      | Ok (v, r) =>
          match skip_ws r with
          | String c r' =>
              if Ascii.eqb c "," then parse_elements depth fuel r' (acc ++ [v])
              else if Ascii.eqb c "]" then Ok (JArr (acc ++ [v]), r')
              else Raise JSONDecodeError
          | EmptyString => Raise JSONDecodeError
          end
      end
  end.

(** [json.load] on a file holding the bytes [s]. *)
Definition loads (s : string) : result json :=
  if utf8_valid s then
    match parse_value recursion_limit (2 * String.length s + 2) s with
    | Ok (v, rest) =>
        match skip_ws rest with
        | EmptyString => Ok v
        | String _ _ => Raise JSONDecodeError
        end
    | Raise e => Raise e
    end
  else Raise UnicodeDecodeError.

#[global] Instance codec : JsonCodec :=
  {| json_dump := dumps; json_load := loads |}.

End PyJson.

(** ** Observations on a trace *)

(** The keys handed to [Controller.press], oldest first. *)
Definition presses (t : list effect) : list key :=
  omap (fun e => match e with EPress k => Some k | _ => None end) t.

(** The keys handed to [Controller.release], oldest first. *)
Definition releases (t : list effect) : list key :=
  omap (fun e => match e with ERelease k => Some k | _ => None end) t.

(** The joystick scans performed, oldest first. *)
Definition scans_of (t : list effect) : list (list string) :=
  omap (fun e => match e with EScan names => Some names | _ => None end) t.

(** What one dispatch does to the injector, for a key string that
    resolves to [k]. *)
Definition dispatch_effects (w : world) (key_string : json) (k : key)
  : list effect :=
  if press_raises w k then [EPress k; EPrint (MsgKeyError key_string)]
  else [EPress k; ESleep (1 # 20); ERelease k]
         ++ (if release_raises w k then [EPrint (MsgKeyError key_string)] else []).

Definition add_effects (es : list effect) (w : world) : world :=
  World (fs_file w) (fs_readable w) (fs_writable w)
        (press_raises w) (release_raises w) (trace w ++ es).

(** ** Sample worlds *)

(** A world where the file is absent and the injector never fails. *)
Definition idle_world : world :=
  World None true true (fun _ => false) (fun _ => false) [].

(** An injector whose [press] always fails. *)
Definition refusing_injector : world :=
  World None true true (fun _ => true) (fun _ => false) [].

(** A world whose configuration file holds [text]. *)
Definition world_with_file (text : string) : world :=
  World (Some text) true true (fun _ => false) (fun _ => false) [].

(** ** Well-formed configurations and sessions *)

(** The values [dict.get] accepts as a key: all but lists and dicts. *)
Definition hashable (j : json) : bool :=
  match j with
  | JArr _ | JObj _ => false
  | _ => true
  end.

(** A configuration the event handlers can work with: a dict whose
    [button_mappings], when present, is a dict of hashable values and whose
    [trigger_threshold], when present, is a number. *)
Definition config_ok (config : json) : bool :=
  match config with
  | JObj kvs =>
      match dict_get kvs "button_mappings" with
      | None => true
      | Some (JObj table) => forallb (fun kv => hashable (snd kv)) table
      | Some _ => false
      end
      && match dict_get kvs "trigger_threshold" with
         | None => true
         | Some thr => match as_number thr with Some _ => true | None => false end
         end
  | _ => false
  end.

(** Both triggers have an entry in [trigger_states]. *)
Definition tracked (st : session) : Prop :=
  is_Some (trigger_states st !! "left") /\ is_Some (trigger_states st !! "right").

(** A computation that leaves the file and the injector as they are and
    only appends effects that satisfy [P] to the trace. *)
Definition appends (P : effect -> Prop) {A} (c : M A) : Prop :=
  forall w, exists es, snd (c w) = add_effects es w /\ Forall P es.

(** The effects of event handling: console, clock and injector. *)
Definition is_io (e : effect) : Prop :=
  match e with
  | EScan _ => False
  | _ => True
  end.

(** * Properties *)

Open Scope list_scope.

Lemma Qlt_bool_iff x y : Qlt_bool x y = true <-> (x < y)%Q.
Proof.
  unfold Qlt_bool. rewrite negb_true_iff. split.
  - intros H. apply Qnot_le_lt. intros Hle.
    apply Qle_bool_iff in Hle. congruence.
  - intros H. destruct (Qle_bool y x) eqn:E; [|done].
    apply Qle_bool_iff in E. exfalso. by apply (Qlt_not_le x y).
Qed.

Lemma Qlt_bool_false x y : Qlt_bool x y = false <-> (y <= x)%Q.
Proof.
  unfold Qlt_bool. rewrite negb_false_iff. apply Qle_bool_iff.
Qed.

(** ** Laws of the computations, pointwise in the world *)

Lemma bind_ret_l {A B} (a : A) (k : A -> M B) w : bind (ret a) k w = k a w.
Proof. reflexivity. Qed.

Lemma bind_assoc {A B C} (c : M A) (k : A -> M B) (k' : B -> M C) w :
  bind (bind c k) k' w = bind c (fun a => bind (k a) k') w.
Proof. unfold bind. by destruct (c w) as [[a|e] w']. Qed.

Lemma bind_ext {A B} (c : M A) (k k' : A -> M B) w :
  (forall a w', k a w' = k' a w') -> bind c k w = bind c k' w.
Proof. intros Hk. unfold bind. by destruct (c w) as [[a|e] w']. Qed.

Lemma bind_cong_l {A B} (c c' : M A) (k : A -> M B) w :
  c w = c' w -> bind c k w = bind c' k w.
Proof. intros Hc. unfold bind. by rewrite Hc. Qed.

Lemma bind_ok {A B} (c : M A) (k : A -> M B) w a w' :
  c w = (Ok a, w') -> bind c k w = k a w'.
Proof. intros Hc. unfold bind. by rewrite Hc. Qed.

(** ** The clock *)

Lemma nanoseconds_nonnegative seconds :
  (0 <= seconds <= 9000000000)%Q ->
  (0 <= nanoseconds seconds <= 9000000000000000000)%Z.
Proof.
  intros [Hlo Hhi]. unfold nanoseconds.
  assert (Hns : (0 <= seconds * 1000000000)%Q)
    by (apply Qmult_le_0_compat; [done | discriminate]).
  apply Qlt_bool_false in Hns as Hsign. rewrite Hsign.
  split.
  - change 0%Z with (Qceiling 0). by apply Qceiling_resp_le.
  - change 9000000000000000000%Z with (Qceiling (9000000000 * 1000000000)).
    apply Qceiling_resp_le, Qmult_le_compat_r; [done | discriminate].
Qed.

Lemma nanoseconds_negative seconds :
  (- 9000000000 <= seconds)%Q -> (seconds < 0)%Q ->
  (- 9000000000000000000 <= nanoseconds seconds <= 0)%Z.
Proof.
  intros Hlo Hneg. unfold nanoseconds.
  assert (Hns : (seconds * 1000000000 < 0)%Q).
  { rewrite <- (Qmult_0_l 1000000000). by apply Qmult_lt_compat_r. }
  apply Qlt_bool_iff in Hns as Hsign. rewrite Hsign.
  split.
  - change (- 9000000000000000000)%Z
      with (Qfloor (- 9000000000 * 1000000000)).
    apply Qfloor_resp_le, Qmult_le_compat_r; [done | discriminate].
  - change 0%Z with (Qfloor 0). by apply Qfloor_resp_le, Qlt_le_weak.
Qed.

(** A sleep of up to 9e9 seconds is performed. *)
Lemma sleep_nonnegative seconds w :
  (0 <= seconds <= 9000000000)%Q ->
  sleep seconds w = (Ok tt, log (ESleep seconds) w).
Proof.
  intros Hrange. pose proof (nanoseconds_nonnegative _ Hrange) as Hns.
  destruct Hrange as [Hlo%Qlt_bool_false _]. unfold sleep. cbv zeta.
  replace (nanoseconds seconds <? - 9223372036854775808)%Z with false by lia.
  replace (9223372036854775808 <=? nanoseconds seconds)%Z with false by lia.
  by rewrite Hlo.
Qed.

(** A negative sleep of no more than 9e9 seconds is refused for its
    sign. *)
Lemma sleep_negative seconds w :
  (- 9000000000 <= seconds)%Q -> (seconds < 0)%Q ->
  sleep seconds w = (Raise ValueError, w).
Proof.
  intros Hlo Hneg. pose proof (nanoseconds_negative _ Hlo Hneg) as Hns.
  apply Qlt_bool_iff in Hneg. unfold sleep. cbv zeta.
  replace (nanoseconds seconds <? - 9223372036854775808)%Z with false by lia.
  replace (9223372036854775808 <=? nanoseconds seconds)%Z with false by lia.
  by rewrite Hneg.
Qed.

(** A sleep of 1e10 seconds or more, of either sign, does not fit the
    time type. *)
Lemma sleep_too_long seconds w :
  (10000000000 <= Qabs seconds)%Q ->
  sleep seconds w = (Raise OverflowError, w).
Proof.
  intros Hlong. unfold sleep, nanoseconds. cbv zeta.
  destruct (Qlt_le_dec seconds 0) as [Hneg | Hpos].
  - rewrite (Qabs_neg seconds) in Hlong by by apply Qlt_le_weak.
    assert (Hns : (seconds * 1000000000 < 0)%Q).
    { rewrite <- (Qmult_0_l 1000000000). by apply Qmult_lt_compat_r. }
    apply Qlt_bool_iff in Hns as Hsign. rewrite Hsign.
    assert (Hle : (seconds * 1000000000 <= - 10000000000 * 1000000000)%Q).
    { apply Qmult_le_compat_r; [| discriminate].
      apply Qopp_le_compat in Hlong. by rewrite Qopp_involutive in Hlong. }
    apply Qfloor_resp_le in Hle.
    change (Qfloor (- 10000000000 * 1000000000))
      with (- 10000000000000000000)%Z in Hle.
    replace (Qfloor (seconds * 1000000000) <? - 9223372036854775808)%Z
      with true by lia.
    reflexivity.
  - rewrite (Qabs_pos seconds) in Hlong by done.
    assert (Hns : (0 <= seconds * 1000000000)%Q)
      by (apply Qmult_le_0_compat; [done | discriminate]).
    apply Qlt_bool_false in Hns as Hsign. rewrite Hsign.
    assert (Hle : (10000000000 * 1000000000 <= seconds * 1000000000)%Q)
      by (apply Qmult_le_compat_r; [done | discriminate]).
    apply Qceiling_resp_le in Hle.
    change (Qceiling (10000000000 * 1000000000))
      with 10000000000000000000%Z in Hle.
    replace (9223372036854775808 <=? Qceiling (seconds * 1000000000))%Z
      with true by lia.
    by rewrite orb_true_r.
Qed.

Lemma Qdiv_negative r : (r < 0)%Q -> (1 / r < 0)%Q.
Proof.
  destruct r as [[|p|p] d]; unfold Qlt, Qdiv, Qmult, Qinv; cbn; lia.
Qed.

(** A number that is zero is not an int beyond the float range. *)
Lemma zero_does_not_overflow rate r :
  as_number rate = Some r -> (r == 0)%Q -> float_overflows rate = false.
Proof.
  destruct rate as [| b | n | m e | | |]; try done.
  intros [= <-] Hzero. unfold Qeq in Hzero. cbn in Hzero.
  assert (n = 0%Z) as -> by lia. by vm_compute.
Qed.

(** Every name of the button table is a non-empty string, so the truth
    test on [button_name] only excludes [None]. *)
Lemma get_button_name_nonempty b name :
  get_button_name b = Some name -> String.eqb name "" = false.
Proof.
  unfold get_button_name. intros Hb.
  repeat (match type of Hb with
          | match ?x with _ => _ end = _ => destruct x
          end; try discriminate);
    by injection Hb as <-.
Qed.

(** ** Key Action Dispatcher *)

Lemma press_key_spec key_string k w :
  get_key_from_string key_string = Ok k ->
  press_key key_string w = (Ok tt, add_effects (dispatch_effects w key_string k) w).
Proof.
  intros Hk. unfold press_key, bind, lift, try_except. rewrite Hk.
  unfold controller_press, sleep, controller_release, print, dispatch_effects,
    add_effects, log. simpl.
  destruct (press_raises w k); simpl.
  - by rewrite <- !app_assoc.
  - destruct (release_raises w k); simpl; by rewrite <- !app_assoc.
Qed.

(** C2, as stated, fails: when [press] raises, control leaves the [try]
    block before [release] is reached; the only other effect is the
    error message. *)
Lemma release_skipped_after_failed_press :
  press_raises refusing_injector (Lit (JStr " ")) = true /\
  press_key (JStr "space") refusing_injector
  = (Ok tt,
     add_effects [EPress (Lit (JStr " ")); EPrint (MsgKeyError (JStr "space"))]
       refusing_injector) /\
  releases (trace (snd (press_key (JStr "space") refusing_injector))) = [].
Proof. repeat split. Qed.

(** C2, amended: a dispatch returns normally and attempts [press] exactly
    once; [release] is attempted exactly when [press] succeeded, and is
    skipped when [press] reported an error. *)
Theorem press_key_releases_iff_press_succeeds key_string k w :
  get_key_from_string key_string = Ok k ->
  fst (press_key key_string w) = Ok tt /\
  presses (trace (snd (press_key key_string w))) = presses (trace w) ++ [k] /\
  releases (trace (snd (press_key key_string w)))
  = releases (trace w) ++ (if press_raises w k then [] else [k]).
Proof.
  intros Hk. rewrite (press_key_spec _ _ _ Hk). cbn [fst snd].
  unfold add_effects, dispatch_effects, presses, releases. cbn [trace].
  rewrite !omap_app.
  destruct (press_raises w k), (release_raises w k); auto.
Qed.

Lemma press_key_releases_iff_press_succeeds_witness :
  fst (press_key (JStr "ctrl") refusing_injector) = Ok tt /\
  presses (trace (snd (press_key (JStr "ctrl") refusing_injector)))
  = [Named Key.ctrl] /\
  releases (trace (snd (press_key (JStr "ctrl") refusing_injector))) = [].
Proof.
  apply (press_key_releases_iff_press_succeeds
           (JStr "ctrl") (Named Key.ctrl) refusing_injector).
  reflexivity.
Defined.

(** ** Emission *)

Lemma handle_button_press_unmapped config kvs button_name w :
  py_get config "button_mappings" (JObj []) = Ok (JObj kvs) ->
  dict_get kvs button_name = None ->
  handle_button_press config button_name w = (Ok tt, w).
Proof.
  intros Hget Hnone. unfold handle_button_press, bind, lift.
  rewrite Hget. cbn. by rewrite Hnone.
Qed.

(** C9: a button name that is not a key of [button_mappings] (also when
    the configuration has no [button_mappings] at all) reaches no injector
    call and raises nothing: emitting it leaves the world as it was, and so
    does its down edge. *)
Theorem unmapped_button_no_injection config kvs button_name w :
  py_get config "button_mappings" (JObj []) = Ok (JObj kvs) ->
  dict_get kvs button_name = None ->
  handle_button_press config button_name w = (Ok tt, w) /\
  forall b st,
    get_button_name b = Some button_name ->
    button_states st !! button_name = None ->
    handle_event config (JOYBUTTONDOWN b) st w
    = (Ok (set_button button_name true st), w).
Proof.
  intros Hget Hnone. split.
  - by apply (handle_button_press_unmapped _ kvs).
  - intros b st Hb Hst. unfold handle_event. rewrite Hb.
    rewrite (get_button_name_nonempty _ _ Hb). cbn [negb]. rewrite Hst.
    unfold bind. by rewrite (handle_button_press_unmapped _ kvs).
Qed.

Lemma unmapped_button_no_injection_witness :
  handle_button_press default_config "LEFT_STICK" refusing_injector
  = (Ok tt, refusing_injector) /\
  handle_event default_config (JOYBUTTONDOWN 8) fresh refusing_injector
  = (Ok (set_button "LEFT_STICK" true fresh), refusing_injector).
Proof.
  destruct (unmapped_button_no_injection default_config
              [("A", JStr "space"); ("B", JStr "escape"); ("X", JStr "return");
               ("Y", JStr "tab"); ("START", JStr "f11"); ("SELECT", JStr "f12");
               ("LEFT_TRIGGER", JStr "ctrl"); ("RIGHT_TRIGGER", JStr "shift");
               ("DPAD_UP", JStr "up"); ("DPAD_DOWN", JStr "down");
               ("DPAD_LEFT", JStr "left"); ("DPAD_RIGHT", JStr "right")]
              "LEFT_STICK" refusing_injector) as [Hemit Hdown];
    [reflexivity | reflexivity |].
  split; [exact Hemit |].
  apply Hdown; reflexivity.
Defined.

Lemma add_effects_add_effects es1 es2 w :
  add_effects es2 (add_effects es1 w) = add_effects (es1 ++ es2) w.
Proof. unfold add_effects. cbn. by rewrite app_assoc. Qed.

Lemma presses_add_effects es w :
  presses (trace (add_effects es w)) = presses (trace w) ++ presses es.
Proof. unfold presses, add_effects. cbn [trace]. apply omap_app. Qed.

Lemma presses_dispatch_effects w key_string k :
  presses (dispatch_effects w key_string k) = [k].
Proof.
  unfold dispatch_effects.
  by destruct (press_raises w k), (release_raises w k).
Qed.

Lemma presses_print m es : presses (EPrint m :: es) = presses es.
Proof. reflexivity. Qed.

(** What one emission of a mapped button does: the console line, then the
    dispatch of the mapped key string. *)
Lemma handle_button_press_mapped config kvs button_name key_string k w :
  py_get config "button_mappings" (JObj []) = Ok (JObj kvs) ->
  dict_get kvs button_name = Some key_string ->
  get_key_from_string key_string = Ok k ->
  handle_button_press config button_name w
  = (Ok tt,
     add_effects (EPrint (MsgButtonPressed button_name key_string)
                    :: dispatch_effects w key_string k) w).
Proof.
  intros Hget Hsome Hk. unfold handle_button_press, bind, lift.
  rewrite Hget. cbn [py_in]. rewrite Hsome.
  destruct config as [| | | | | |cfg]; try discriminate.
  cbn in Hget. cbn [py_subscript].
  destruct (dict_get cfg "button_mappings") as [table|] eqn:Htable.
  - injection Hget as ->. cbn [py_subscript]. rewrite Hsome.
    unfold print. rewrite (press_key_spec _ _ _ Hk).
    unfold add_effects, log, dispatch_effects. cbn.
    by rewrite <- !app_assoc.
  - injection Hget as <-. discriminate.
Qed.

(** ** D-pad axes *)

Lemma dpad_axis_event config st w v (axis : Z) pos neg :
  (axis = 0%Z /\ pos = "DPAD_RIGHT" /\ neg = "DPAD_LEFT") \/
  (axis = 1%Z /\ pos = "DPAD_DOWN" /\ neg = "DPAD_UP") ->
  ((1 # 2 < v)%Q ->
   handle_event config (JOYAXISMOTION axis v) st w
   = (handle_button_press config pos ;; ret st) w) /\
  ((v < - (1 # 2))%Q ->
   handle_event config (JOYAXISMOTION axis v) st w
   = (handle_button_press config neg ;; ret st) w).
Proof.
  intros Haxis. split; intros Hv.
  - assert (Habs : Qlt_bool (1 # 2) (Qabs v) = true).
    { apply Qlt_bool_iff. eapply Qlt_le_trans; [exact Hv | apply Qle_Qabs]. }
    apply Qlt_bool_iff in Hv.
    destruct Haxis as [(-> & -> & ->) | (-> & -> & ->)];
      cbn; by rewrite Habs, Hv.
  - assert (Habs : Qlt_bool (1 # 2) (Qabs v) = true).
    { apply Qlt_bool_iff. rewrite <- Qabs_opp.
      eapply Qlt_le_trans; [| apply Qle_Qabs].
      apply Qopp_lt_compat in Hv. by rewrite Qopp_involutive in Hv. }
    assert (Hnot : Qlt_bool (1 # 2) v = false).
    { apply Qlt_bool_false. apply Qlt_le_weak.
      eapply Qlt_trans; [exact Hv | reflexivity]. }
    apply Qlt_bool_iff in Hv.
    destruct Haxis as [(-> & -> & ->) | (-> & -> & ->)];
      cbn; by rewrite Habs, Hnot, Hv.
Qed.

Lemma default_button_mappings :
  exists kvs,
    py_get default_config "button_mappings" (JObj []) = Ok (JObj kvs) /\
    dict_get kvs "DPAD_RIGHT" = Some (JStr "right") /\
    dict_get kvs "LEFT_TRIGGER" = Some (JStr "ctrl").
Proof. eexists. repeat split. Qed.

(** C4: on axes 0 and 1 every event beyond the fixed 0.5 emits its D-pad
    name, whatever the session state (so repeats emit again) and whatever
    the configuration says about [trigger_threshold]; two events at 0.9 on
    axis 0 are two [DPAD_RIGHT] emissions, two presses of [Key.right] under
    the default configuration. *)
Theorem dpad_fires_on_every_qualifying_event config st w v :
  ((1 # 2 < Qabs v)%Q -> (1 # 2 < v)%Q \/ (v < - (1 # 2))%Q) /\
  ((1 # 2 < v)%Q ->
   handle_event config (JOYAXISMOTION 0 v) st w
   = (handle_button_press config "DPAD_RIGHT" ;; ret st) w) /\
  ((v < - (1 # 2))%Q ->
   handle_event config (JOYAXISMOTION 0 v) st w
   = (handle_button_press config "DPAD_LEFT" ;; ret st) w) /\
  ((1 # 2 < v)%Q ->
   handle_event config (JOYAXISMOTION 1 v) st w
   = (handle_button_press config "DPAD_DOWN" ;; ret st) w) /\
  ((v < - (1 # 2))%Q ->
   handle_event config (JOYAXISMOTION 1 v) st w
   = (handle_button_press config "DPAD_UP" ;; ret st) w) /\
  handle_events config
    [JOYAXISMOTION 0 (9 # 10); JOYAXISMOTION 0 (9 # 10)] st w
  = (handle_button_press config "DPAD_RIGHT" ;;
     handle_button_press config "DPAD_RIGHT" ;;
     ret st) w /\
  presses (trace (snd (handle_events default_config
    [JOYAXISMOTION 0 (9 # 10); JOYAXISMOTION 0 (9 # 10)] st w)))
  = presses (trace w) ++ [Named Key.right; Named Key.right].
Proof.
  assert (Hscenario : forall cfg,
    handle_events cfg
      [JOYAXISMOTION 0 (9 # 10); JOYAXISMOTION 0 (9 # 10)] st w
    = (handle_button_press cfg "DPAD_RIGHT" ;;
       handle_button_press cfg "DPAD_RIGHT" ;;
       ret st) w).
  { intros cfg. cbn [handle_events].
    rewrite (bind_cong_l _ _ _ _
      (proj1 (dpad_axis_event cfg st w (9 # 10) 0 _ _
                (or_introl (conj eq_refl (conj eq_refl eq_refl)))) eq_refl)).
    rewrite bind_assoc. apply bind_ext. intros [] w1. rewrite bind_ret_l.
    rewrite (bind_cong_l _ _ _ _
      (proj1 (dpad_axis_event cfg st w1 (9 # 10) 0 _ _
                (or_introl (conj eq_refl (conj eq_refl eq_refl)))) eq_refl)).
    rewrite bind_assoc. apply bind_ext. intros [] w2.
    by rewrite !bind_ret_l. }
  split; [|repeat split].
  - intros Habs. destruct (Qlt_le_dec v 0) as [Hneg | Hpos].
    + right. rewrite (Qabs_neg v) in Habs by by apply Qlt_le_weak.
      apply Qopp_lt_compat in Habs. by rewrite Qopp_involutive in Habs.
    + left. by rewrite (Qabs_pos v) in Habs.
  - apply (dpad_axis_event config st w v 0 "DPAD_RIGHT" "DPAD_LEFT"). by left.
  - apply (dpad_axis_event config st w v 0 "DPAD_RIGHT" "DPAD_LEFT"). by left.
  - apply (dpad_axis_event config st w v 1 "DPAD_DOWN" "DPAD_UP"). by right.
  - apply (dpad_axis_event config st w v 1 "DPAD_DOWN" "DPAD_UP"). by right.
  - apply Hscenario.
  - rewrite Hscenario.
    destruct default_button_mappings as (kvs & Hget & Hright & _).
    unfold bind.
    rewrite (handle_button_press_mapped _ _ _ _ (Named Key.right) _ Hget Hright)
      by reflexivity.
    rewrite (handle_button_press_mapped _ _ _ _ (Named Key.right) _ Hget Hright)
      by reflexivity.
    cbn [ret snd]. rewrite !presses_add_effects, !presses_print.
    rewrite !presses_dispatch_effects. by rewrite <- app_assoc.
Qed.

Lemma dpad_fires_on_every_qualifying_event_witness :
  handle_event default_config (JOYAXISMOTION 0 (9 # 10)) fresh idle_world
  = (handle_button_press default_config "DPAD_RIGHT" ;; ret fresh) idle_world /\
  handle_event default_config (JOYAXISMOTION 1 (- 9 # 10)) fresh idle_world
  = (handle_button_press default_config "DPAD_UP" ;; ret fresh) idle_world.
Proof.
  split.
  - apply (dpad_fires_on_every_qualifying_event
             default_config fresh idle_world (9 # 10)).
    reflexivity.
  - apply (dpad_fires_on_every_qualifying_event
             default_config fresh idle_world (- 9 # 10)).
    reflexivity.
Defined.

(** ** Trigger axes *)

Lemma handle_events_app config evs1 evs2 st w :
  handle_events config (evs1 ++ evs2) st w
  = (st' <- handle_events config evs1 st ;; handle_events config evs2 st') w.
Proof.
  revert st w. induction evs1 as [|ev evs1 IH]; intros st w.
  - reflexivity.
  - cbn [app handle_events]. rewrite bind_assoc.
    apply bind_ext. intros st1 w1. apply IH.
Qed.

Lemma get_trigger_set_trigger name b st :
  get_trigger name (set_trigger name b st) = Ok b.
Proof. unfold get_trigger, set_trigger. cbn. by rewrite lookup_insert_eq. Qed.

Section Trigger.
Context (config thr : json) (t : Q).
Context (Hthr : py_get config "trigger_threshold" (JFloat 5 1) = Ok thr).
Context (Hnum : as_number thr = Some t).
Context (axis : Z) (name button : string).
Context (Haxis : (axis = 2%Z /\ name = "left" /\ button = "LEFT_TRIGGER") \/
                 (axis = 3%Z /\ name = "right" /\ button = "RIGHT_TRIGGER")).

Lemma trigger_rising v st w :
  (t < Qabs v)%Q ->
  get_trigger name st = Ok false ->
  handle_event config (JOYAXISMOTION axis v) st w
  = (handle_button_press config button ;; ret (set_trigger name true st)) w.
Proof using Hthr Hnum Haxis.
  intros Hv Hst. apply Qlt_bool_iff in Hv.
  destruct Haxis as [(-> & -> & ->) | (-> & -> & ->)];
    cbn; rewrite Hthr; unfold abs_gt; rewrite Hnum, Hv;
    unfold bind at 1, lift; rewrite Hst; reflexivity.
Qed.

Lemma trigger_held v st w :
  (t < Qabs v)%Q ->
  get_trigger name st = Ok true ->
  handle_event config (JOYAXISMOTION axis v) st w = (Ok st, w).
Proof using Hthr Hnum Haxis.
  intros Hv Hst. apply Qlt_bool_iff in Hv.
  destruct Haxis as [(-> & -> & ->) | (-> & -> & ->)];
    cbn; rewrite Hthr; unfold abs_gt; rewrite Hnum, Hv;
    unfold bind at 1, lift; rewrite Hst; reflexivity.
Qed.

Lemma trigger_reset v st w :
  (Qabs v <= t)%Q ->
  handle_event config (JOYAXISMOTION axis v) st w
  = (Ok (set_trigger name false st), w).
Proof using Hthr Hnum Haxis.
  intros Hv. apply Qlt_bool_false in Hv.
  destruct Haxis as [(-> & -> & ->) | (-> & -> & ->)];
    cbn; rewrite Hthr; unfold abs_gt; by rewrite Hnum, Hv.
Qed.

Lemma trigger_held_run vs st w :
  Forall (fun v => (t < Qabs v)%Q) vs ->
  get_trigger name st = Ok true ->
  handle_events config (map (JOYAXISMOTION axis) vs) st w = (Ok st, w).
Proof using Hthr Hnum Haxis.
  intros Hvs Hst. induction Hvs as [|v vs Hv _ IH]; [done |].
  cbn [map handle_events].
  by rewrite (bind_ok _ _ _ _ _ (trigger_held v st w Hv Hst)).
Qed.

Lemma trigger_run v vs st w :
  Forall (fun v => (t < Qabs v)%Q) (v :: vs) ->
  get_trigger name st = Ok false ->
  handle_events config (map (JOYAXISMOTION axis) (v :: vs)) st w
  = (handle_button_press config button ;; ret (set_trigger name true st)) w.
Proof using Hthr Hnum Haxis.
  intros Hvs Hst. apply Forall_cons in Hvs as [Hv Hvs].
  cbn [map handle_events].
  rewrite (bind_cong_l _ _ _ _ (trigger_rising v st w Hv Hst)).
  rewrite bind_assoc. apply bind_ext. intros [] w1. rewrite bind_ret_l.
  apply (trigger_held_run vs _ w1 Hvs), get_trigger_set_trigger.
Qed.

End Trigger.

(** The scenario of the spec on axis 2, for any configuration whose
    threshold is 0.5. *)
Lemma left_trigger_scenario config w :
  py_get config "trigger_threshold" (JFloat 5 1) = Ok (JFloat 5 1) ->
  handle_events config
    [JOYAXISMOTION 2 (6 # 10); JOYAXISMOTION 2 (7 # 10);
     JOYAXISMOTION 2 (3 # 10); JOYAXISMOTION 2 (6 # 10)] fresh w
  = (handle_button_press config "LEFT_TRIGGER" ;;
     handle_button_press config "LEFT_TRIGGER" ;;
     ret (set_trigger "left" true
            (set_trigger "left" false (set_trigger "left" true fresh)))) w.
Proof.
  intros Hthr.
  assert (Haxis : (2%Z = 2%Z /\ "left" = "left" /\ "LEFT_TRIGGER" = "LEFT_TRIGGER") \/
                  (2%Z = 3%Z /\ "left" = "right" /\ "LEFT_TRIGGER" = "RIGHT_TRIGGER"))
    by (by left).
  change [JOYAXISMOTION 2 (6 # 10); JOYAXISMOTION 2 (7 # 10);
          JOYAXISMOTION 2 (3 # 10); JOYAXISMOTION 2 (6 # 10)]
    with (map (JOYAXISMOTION 2) [(6 # 10)%Q; (7 # 10)%Q]
            ++ JOYAXISMOTION 2 (3 # 10) :: map (JOYAXISMOTION 2) [(6 # 10)%Q]).
  rewrite handle_events_app.
  rewrite (bind_cong_l _ _ _ _
             (trigger_run config _ _ Hthr eq_refl 2 "left" "LEFT_TRIGGER" Haxis
                (6 # 10) [(7 # 10)%Q] fresh w
                ltac:(repeat (constructor; [reflexivity |]); constructor)
                eq_refl)).
  rewrite bind_assoc. apply bind_ext. intros [] w1. rewrite bind_ret_l.
  cbn [handle_events].
  rewrite (bind_ok _ _ _ _ _
             (trigger_reset config _ _ Hthr eq_refl 2 "left" "LEFT_TRIGGER" Haxis
                (3 # 10) _ w1 ltac:(discriminate))).
  apply (trigger_run config _ _ Hthr eq_refl 2 "left" "LEFT_TRIGGER" Haxis
           (6 # 10) []).
  - repeat (constructor; [reflexivity |]); constructor.
  - apply get_trigger_set_trigger.
Qed.

(** C3: on a trigger axis an emission happens only on the step from below
    to above the configured threshold.  A run of consecutive events above
    the threshold, started below it, is exactly one emission and leaves the
    trigger above; an event above the threshold while already above emits
    nothing; an event at or below the threshold emits nothing and resets
    the trigger.  With threshold 0.5 the values 0.6, 0.7, 0.3, 0.6 on axis 2
    are exactly two [LEFT_TRIGGER] emissions, two presses of [Key.ctrl]
    under the default configuration. *)
Theorem trigger_fires_on_rising_edge_only config thr t axis name button :
  py_get config "trigger_threshold" (JFloat 5 1) = Ok thr ->
  as_number thr = Some t ->
  (axis = 2%Z /\ name = "left" /\ button = "LEFT_TRIGGER") \/
  (axis = 3%Z /\ name = "right" /\ button = "RIGHT_TRIGGER") ->
  (forall v vs st w,
     Forall (fun x => (t < Qabs x)%Q) (v :: vs) ->
     get_trigger name st = Ok false ->
     handle_events config (map (JOYAXISMOTION axis) (v :: vs)) st w
     = (handle_button_press config button ;;
        ret (set_trigger name true st)) w) /\
  (forall v st w,
     (t < Qabs v)%Q ->
     get_trigger name st = Ok true ->
     handle_event config (JOYAXISMOTION axis v) st w = (Ok st, w)) /\
  (forall v st w,
     (Qabs v <= t)%Q ->
     handle_event config (JOYAXISMOTION axis v) st w
     = (Ok (set_trigger name false st), w) /\
     get_trigger name (set_trigger name false st) = Ok false) /\
  (thr = JFloat 5 1 ->
   forall w,
     handle_events config
       [JOYAXISMOTION 2 (6 # 10); JOYAXISMOTION 2 (7 # 10);
        JOYAXISMOTION 2 (3 # 10); JOYAXISMOTION 2 (6 # 10)] fresh w
     = (handle_button_press config "LEFT_TRIGGER" ;;
        handle_button_press config "LEFT_TRIGGER" ;;
        ret (set_trigger "left" true
               (set_trigger "left" false (set_trigger "left" true fresh)))) w) /\
  (forall w,
     presses (trace (snd (handle_events default_config
       [JOYAXISMOTION 2 (6 # 10); JOYAXISMOTION 2 (7 # 10);
        JOYAXISMOTION 2 (3 # 10); JOYAXISMOTION 2 (6 # 10)] fresh w)))
     = presses (trace w) ++ [Named Key.ctrl; Named Key.ctrl]).
Proof.
  intros Hthr Hnum Haxis. repeat split.
  - intros v vs st w.
    by apply (trigger_run config thr t Hthr Hnum axis name button Haxis).
  - intros v st w.
    by apply (trigger_held config thr t Hthr Hnum axis name button Haxis).
  - by apply (trigger_reset config thr t Hthr Hnum axis name button Haxis).
  - apply get_trigger_set_trigger.
  - intros -> w. by apply left_trigger_scenario.
  - intros w. rewrite left_trigger_scenario by reflexivity.
    destruct default_button_mappings as (kvs & Hget & _ & Hleft).
    unfold bind.
    rewrite (handle_button_press_mapped _ _ _ _ (Named Key.ctrl) _ Hget Hleft)
      by reflexivity.
    rewrite (handle_button_press_mapped _ _ _ _ (Named Key.ctrl) _ Hget Hleft)
      by reflexivity.
    cbn [ret snd]. rewrite !presses_add_effects, !presses_print.
    rewrite !presses_dispatch_effects. by rewrite <- app_assoc.
Qed.

Lemma trigger_fires_on_rising_edge_only_witness :
  handle_events default_config
    (map (JOYAXISMOTION 3) [(6 # 10)%Q; (- 8 # 10)%Q; 1%Q]) fresh idle_world
  = (handle_button_press default_config "RIGHT_TRIGGER" ;;
     ret (set_trigger "right" true fresh)) idle_world /\
  handle_event default_config (JOYAXISMOTION 3 (1 # 2))
    (set_trigger "right" true fresh) idle_world
  = (Ok (set_trigger "right" false (set_trigger "right" true fresh)), idle_world).
Proof.
  destruct (trigger_fires_on_rising_edge_only
              default_config (JFloat 5 1) (5 # 10) 3 "right" "RIGHT_TRIGGER")
    as (Hrun & _ & Hreset & _).
  - reflexivity.
  - reflexivity.
  - right. repeat split.
  - split.
    + apply Hrun.
      * repeat (constructor; [reflexivity |]); constructor.
      * reflexivity.
    + apply Hreset. discriminate.
Defined.

(** ** Buttons *)

(** An event changes [button_states] by at most one assignment: no entry
    is ever removed. *)
Lemma handle_event_button_states config ev st w st' w' :
  handle_event config ev st w = (Ok st', w') ->
  button_states st' = button_states st \/
  exists name b, button_states st' = <[name := b]> (button_states st).
Proof.
  intros H. unfold handle_event, bind, ret, lift in H.
  repeat case_match; simplify_eq; cbn; eauto.
Qed.

Lemma handle_event_keeps_entry config ev st w st' w' name :
  is_Some (button_states st !! name) ->
  handle_event config ev st w = (Ok st', w') ->
  is_Some (button_states st' !! name).
Proof.
  intros Hin H.
  destruct (handle_event_button_states _ _ _ _ _ _ H) as [-> | (n & b & ->)];
    [done |].
  destruct (decide (n = name)) as [-> | Hne].
  - rewrite lookup_insert_eq. eauto.
  - by rewrite lookup_insert_ne.
Qed.

Lemma handle_events_keeps_entry config evs st w st' w' name :
  is_Some (button_states st !! name) ->
  handle_events config evs st w = (Ok st', w') ->
  is_Some (button_states st' !! name).
Proof.
  revert st w. induction evs as [|ev evs IH]; intros st w Hin H.
  - cbn in H. unfold ret in H. by simplify_eq.
  - cbn [handle_events] in H. unfold bind in H.
    destruct (handle_event config ev st w) as [[st1|e] w1] eqn:Hev; [|done].
    eapply IH; [|exact H]. by eapply handle_event_keeps_entry.
Qed.

Lemma down_with_entry_is_silent config b name st w :
  get_button_name b = Some name ->
  is_Some (button_states st !! name) ->
  handle_event config (JOYBUTTONDOWN b) st w = (Ok st, w).
Proof.
  intros Hb [held Hheld]. unfold handle_event.
  rewrite Hb, (get_button_name_nonempty _ _ Hb). cbn [negb]. by rewrite Hheld.
Qed.

Lemma down_leaves_entry config b name st w st' w' :
  get_button_name b = Some name ->
  handle_event config (JOYBUTTONDOWN b) st w = (Ok st', w') ->
  is_Some (button_states st' !! name).
Proof.
  intros Hb H. unfold handle_event in H.
  rewrite Hb, (get_button_name_nonempty _ _ Hb) in H. cbn [negb] in H.
  destruct (button_states st !! name) as [held|] eqn:Hheld.
  - unfold ret in H. simplify_eq. eauto.
  - unfold bind, ret in H.
    destruct (handle_button_press config name w) as [[[]|e] w1]; [|done].
    simplify_eq. cbn. rewrite lookup_insert_eq. eauto.
Qed.

(** C5: once a down event of a button has been processed, the button has
    an entry in [button_states]; the up event overwrites the entry with
    [False] without removing it, and after any further events a down event
    of the same button changes neither the world nor the session state.
    Each button therefore fires at most once per session. *)
Theorem button_fires_once_per_session config b name st w st1 w1 :
  get_button_name b = Some name ->
  handle_event config (JOYBUTTONDOWN b) st w = (Ok st1, w1) ->
  (forall evs,
     handle_events config (evs ++ [JOYBUTTONDOWN b]) st1 w1
     = handle_events config evs st1 w1) /\
  (forall st2 w2,
     handle_event config (JOYBUTTONUP b) st2 w2
     = (Ok (set_button name false st2), w2) /\
     button_states (set_button name false st2) !! name = Some false /\
     handle_event config (JOYBUTTONDOWN b) (set_button name false st2) w2
     = (Ok (set_button name false st2), w2)).
Proof.
  intros Hb Hdown. split.
  - intros evs. rewrite handle_events_app. unfold bind.
    destruct (handle_events config evs st1 w1) as [[st2|e] w2] eqn:Hevs; [|done].
    cbn [handle_events].
    rewrite (bind_ok _ _ _ _ _ (down_with_entry_is_silent config b name st2 w2 Hb
      (handle_events_keeps_entry _ _ _ _ _ _ _
         (down_leaves_entry _ _ _ _ _ _ _ Hb Hdown) Hevs))).
    reflexivity.
  - intros st2 w2.
    assert (Hentry : button_states (set_button name false st2) !! name = Some false)
      by (cbn; by rewrite lookup_insert_eq).
    repeat split.
    + unfold handle_event.
      by rewrite Hb, (get_button_name_nonempty _ _ Hb).
    + exact Hentry.
    + apply (down_with_entry_is_silent _ _ name); [done | by rewrite Hentry].
Qed.

Lemma button_fires_once_per_session_witness :
  handle_events default_config
    ([JOYBUTTONUP 0; JOYBUTTONDOWN 1; JOYBUTTONUP 0] ++ [JOYBUTTONDOWN 0])
    (set_button "A" true fresh)
    (add_effects (EPrint (MsgButtonPressed "A" (JStr "space"))
                    :: dispatch_effects idle_world (JStr "space") (Lit (JStr " ")))
       idle_world)
  = handle_events default_config
      [JOYBUTTONUP 0; JOYBUTTONDOWN 1; JOYBUTTONUP 0]
      (set_button "A" true fresh)
      (add_effects (EPrint (MsgButtonPressed "A" (JStr "space"))
                      :: dispatch_effects idle_world (JStr "space") (Lit (JStr " ")))
         idle_world).
Proof.
  apply (button_fires_once_per_session default_config 0 "A" fresh idle_world);
    reflexivity.
Defined.

(** C1 at its own scenario: with [button_mappings = {"A": "space"}] the
    events down, down, up, down of button 0 reach the injector with one
    press of the space character, not two.  The first down emits; the
    fourth finds the entry that the up event left behind ([False], but
    present) and is skipped by the [not in] test. *)
Theorem button_scenario_presses_space_once w :
  presses (trace (snd (handle_events
    (JObj [("button_mappings", JObj [("A", JStr "space")])])
    [JOYBUTTONDOWN 0; JOYBUTTONDOWN 0; JOYBUTTONUP 0; JOYBUTTONDOWN 0]
    fresh w)))
  = presses (trace w) ++ [Lit (JStr " ")].
Proof.
  cbn [handle_events].
  change (handle_event _ (JOYBUTTONDOWN 0) fresh)
    with (handle_button_press
            (JObj [("button_mappings", JObj [("A", JStr "space")])]) "A" ;;
          ret (set_button "A" true fresh)).
  rewrite bind_assoc.
  rewrite (bind_ok _ _ _ _ _
    (handle_button_press_mapped
       (JObj [("button_mappings", JObj [("A", JStr "space")])])
       [("A", JStr "space")] "A" (JStr "space")
       (Lit (JStr " ")) w eq_refl eq_refl eq_refl)).
  rewrite bind_ret_l.
  match goal with
  | |- presses (trace (snd (?c ?w'))) = _ =>
      change (c w') with (Ok (set_button "A" false (set_button "A" true fresh)), w')
  end.
  cbn [snd]. rewrite presses_add_effects, presses_print.
  by rewrite presses_dispatch_effects.
Qed.

(** ** Config Model *)

Section ConfigProperties.
Context `{JsonCodec}.

Lemma save_config_writable cfg w :
  fs_writable w = true ->
  save_config cfg w = (Ok tt, set_file (json_dump cfg) w).
Proof. intros Hw. unfold save_config, try_except, write_file. by rewrite Hw. Qed.

Lemma save_config_unwritable cfg w :
  fs_writable w = false ->
  save_config cfg w = (Ok tt, log (EPrint MsgSaveError) w).
Proof. intros Hw. unfold save_config, try_except, write_file. by rewrite Hw. Qed.

(** C6, amended: with no file, [load_config] returns the built-in
    default (threshold 0.5, polling rate 60, auto-restart on, the twelve
    button mappings) after having handed it to [save_config], which leaves
    it in the file when the file can be written; with a file on which
    [json.load] raises [JSONDecodeError], it prints the error and returns
    the empty dict; every other exception of [json.load] is not caught and
    leaves [load_config] as it was raised. *)
Theorem load_config_default_and_malformed :
  (forall w,
     fs_file w = None ->
     load_config w = (Ok default_config, snd (save_config default_config w)) /\
     (fs_writable w = true ->
      fs_file (snd (load_config w)) = Some (json_dump default_config))) /\
  (forall w text,
     fs_file w = Some text ->
     fs_readable w = true ->
     json_load text = Raise JSONDecodeError ->
     load_config w = (Ok (JObj []), log (EPrint MsgLoadError) w)) /\
  (forall w text e,
     fs_file w = Some text ->
     fs_readable w = true ->
     json_load text = Raise e ->
     e <> JSONDecodeError ->
     e <> FileNotFoundError ->
     load_config w = (Raise e, w)) /\
  py_get default_config "trigger_threshold" JNull = Ok (JFloat 5 1) /\
  py_get default_config "polling_rate" JNull = Ok (JInt 60) /\
  py_get default_config "auto_restart" JNull = Ok (JBool true) /\
  py_get default_config "button_mappings" JNull
  = Ok (JObj [("A", JStr "space"); ("B", JStr "escape"); ("X", JStr "return");
              ("Y", JStr "tab"); ("START", JStr "f11"); ("SELECT", JStr "f12");
              ("LEFT_TRIGGER", JStr "ctrl"); ("RIGHT_TRIGGER", JStr "shift");
              ("DPAD_UP", JStr "up"); ("DPAD_DOWN", JStr "down");
              ("DPAD_LEFT", JStr "left"); ("DPAD_RIGHT", JStr "right")]).
Proof.
  split; [|split; [|split; [|by repeat split]]].
  - intros w Hnone.
    assert (Hload : load_config w
                    = (Ok default_config, snd (save_config default_config w))).
    { unfold load_config. rewrite Hnone. unfold bind.
      destruct (fs_writable w) eqn:Hw.
      - by rewrite save_config_writable.
      - by rewrite save_config_unwritable. }
    split; [exact Hload |].
    intros Hw. rewrite Hload. cbn [snd]. by rewrite save_config_writable.
  - intros w text Hfile Hr Hbad.
    unfold load_config. rewrite Hfile.
    unfold try_except, bind, read_file, lift. rewrite Hfile, Hr, Hbad.
    reflexivity.
  - intros w text e Hfile Hr Hbad Hjson Hfnf.
    unfold load_config. rewrite Hfile.
    unfold try_except, bind, read_file, lift. rewrite Hfile, Hr, Hbad.
    by destruct e.
Qed.

End ConfigProperties.

Lemma load_config_default_and_malformed_witness :
  (load_config idle_world
   = (Ok default_config, snd (save_config default_config idle_world)) /\
   fs_file (snd (load_config idle_world)) = Some (json_dump default_config)) /\
  load_config (world_with_file "{")
  = (Ok (JObj []), log (EPrint MsgLoadError) (world_with_file "{")) /\
  load_config (world_with_file (PyJson.repeat_char "1" 4301))
  = (Raise ValueError, world_with_file (PyJson.repeat_char "1" 4301)).
Proof.
  destruct (load_config_default_and_malformed (H := PyJson.codec))
    as (Habsent & Hmalformed & Hescapes & _).
  split; [|split].
  - destruct (Habsent idle_world eq_refl) as [Hload Hsaved].
    split; [exact Hload | exact (Hsaved eq_refl)].
  - apply (Hmalformed (world_with_file "{") "{"); reflexivity.
  - apply (Hescapes (world_with_file (PyJson.repeat_char "1" 4301))
             (PyJson.repeat_char "1" 4301));
      [reflexivity | reflexivity | by vm_compute | discriminate | discriminate].
Defined.

(** C6, as stated, fails: a file that holds the byte 0xFF is not JSON,
    yet [load_config] does not return the empty dict for it.  The bytes do
    not decode, [json.load] raises [UnicodeDecodeError], and the [except]
    clause, which names [JSONDecodeError] and [FileNotFoundError] only,
    lets it through. *)
Lemma load_config_raises_on_undecodable_file :
  json_load (String (ascii_of_nat 255) "") = Raise UnicodeDecodeError /\
  load_config (world_with_file (String (ascii_of_nat 255) ""))
  = (Raise UnicodeDecodeError, world_with_file (String (ascii_of_nat 255) "")) /\
  load_config (world_with_file (String (ascii_of_nat 255) ""))
  <> (Ok (JObj []),
      log (EPrint MsgLoadError) (world_with_file (String (ascii_of_nat 255) ""))).
Proof. split; [|split]; [reflexivity | reflexivity | discriminate]. Qed.

Lemma default_config_reads_back :
  PyJson.loads (PyJson.dumps default_config) = Ok default_config.
Proof. vm_compute. reflexivity. Qed.

(** C8: once the default configuration has been saved to a file that can
    be written and read, [load_config] returns the default configuration
    itself, and changes nothing. *)
Theorem save_then_load_default w :
  fs_writable w = true ->
  fs_readable w = true ->
  load_config (snd (save_config default_config w))
  = (Ok default_config, snd (save_config default_config w)).
Proof.
  intros Hw Hr. rewrite save_config_writable by done. cbn [snd].
  unfold load_config, try_except, bind, read_file. cbn [fs_file fs_readable set_file].
  rewrite Hr. cbn [json_load json_dump PyJson.codec].
  by rewrite default_config_reads_back.
Qed.

Lemma save_then_load_default_witness :
  load_config (snd (save_config default_config (world_with_file "[1, 2]")))
  = (Ok default_config,
     snd (save_config default_config (world_with_file "[1, 2]"))).
Proof.
  apply (save_then_load_default (world_with_file "[1, 2]")); reflexivity.
Defined.

(** ** Polling cadence *)

(** C10: the sleep of the active loop is [1.0 / polling_rate].  The
    quotient is 1/60 when the key is absent; for a number [r] found under
    the key it is defined only when [r] is not zero, and is then [1/r]
    (it is defined for every such [r] that converts to a float);
    [ZeroDivisionError] is raised when [r] is zero.  The loop sleeps for
    that quotient after each batch of events.  Nothing between the file and
    the division checks the value: a file that says [polling_rate: 0] is
    loaded as it is and the first iteration of the loop raises. *)
Theorem poll_interval_defined_iff_rate_nonzero kvs :
  (dict_get kvs "polling_rate" = None ->
   poll_interval (JObj kvs) = Ok (1 / 60)%Q) /\
  (forall rate r,
     dict_get kvs "polling_rate" = Some rate ->
     as_number rate = Some r ->
     ((r == 0)%Q -> poll_interval (JObj kvs) = Raise ZeroDivisionError) /\
     (forall seconds,
        poll_interval (JObj kvs) = Ok seconds ->
        ~ (r == 0)%Q /\ seconds = (1 / r)%Q) /\
     (~ (r == 0)%Q -> float_overflows rate = false ->
      poll_interval (JObj kvs) = Ok (1 / r)%Q)) /\
  (forall self evs rest st w st1 w1 seconds,
     config self = JObj kvs ->
     running self = true ->
     handle_events (config self) evs st w = (Ok st1, w1) ->
     poll_interval (JObj kvs) = Ok seconds ->
     (0 <= seconds <= 9000000000)%Q ->
     poll_loop self (evs :: rest) st w
     = poll_loop self rest st1 (log (ESleep seconds) w1)) /\
  (forall w,
     fs_file w = Some (PyJson.dumps (JObj [("polling_rate", JInt 0)])) ->
     fs_readable w = true ->
     load_config w = (Ok (JObj [("polling_rate", JInt 0)]), w) /\
     forall evs rest st,
       poll_loop (Mapper (JObj [("polling_rate", JInt 0)]) true (Some 1%Z))
         (evs :: rest) st w
       = (Raise ZeroDivisionError,
          snd (handle_events (JObj [("polling_rate", JInt 0)]) evs st w)) \/
       exists e,
         fst (handle_events (JObj [("polling_rate", JInt 0)]) evs st w) = Raise e).
Proof.
  split; [|split; [|split]].
  - intros Hnone. unfold poll_interval, py_get. by rewrite Hnone.
  - intros rate r Hrate Hnum. unfold poll_interval, py_get.
    rewrite Hrate, Hnum. split; [|split].
    + intros Hzero. rewrite (zero_does_not_overflow _ _ Hnum Hzero).
      apply Qeq_bool_iff in Hzero. by rewrite Hzero.
    + intros seconds Hdefined.
      destruct (float_overflows rate); [done |].
      destruct (Qeq_bool r 0) eqn:E; [done |].
      injection Hdefined as <-. split; [|done].
      intros Hzero%Qeq_bool_iff. congruence.
    + intros Hnz ->. destruct (Qeq_bool r 0) eqn:E; [|done].
      apply Qeq_bool_iff in E. contradiction.
  - intros self evs rest st w st1 w1 seconds Hcfg Hrun Hevs Hrate Hrange.
    cbn [poll_loop]. rewrite Hrun, (bind_ok _ _ _ _ _ Hevs).
    unfold bind at 1, lift. rewrite Hcfg, Hrate.
    by rewrite (bind_ok _ _ _ _ _ (sleep_nonnegative _ _ Hrange)).
  - intros w Hfile Hr. split.
    + unfold load_config, try_except, bind, read_file, lift. rewrite Hfile, Hr.
      cbn [json_load PyJson.codec].
      assert (E : PyJson.loads (PyJson.dumps (JObj [("polling_rate", JInt 0)]))
                  = Ok (JObj [("polling_rate", JInt 0)]))
        by (vm_compute; reflexivity).
      by rewrite E.
    + intros evs rest st. cbn [poll_loop running config]. unfold bind.
      destruct (handle_events _ evs st w) as [[st'|e] w']; [left | right; eauto].
      reflexivity.
Qed.

Lemma poll_interval_defined_iff_rate_nonzero_witness :
  poll_interval (JObj [("auto_restart", JBool false)]) = Ok (1 / 60)%Q /\
  poll_interval (JObj [("polling_rate", JFloat 0 0)]) = Raise ZeroDivisionError /\
  poll_interval (JObj [("polling_rate", JInt (-30))]) = Ok (1 / (-30 # 1))%Q /\
  poll_loop (Mapper (JObj [("polling_rate", JInt 50)]) true (Some 1%Z))
    [[JOYBUTTONUP 0]; []] fresh idle_world
  = poll_loop (Mapper (JObj [("polling_rate", JInt 50)]) true (Some 1%Z))
      [[]] (set_button "A" false fresh)
      (log (ESleep (1 / 50)%Q) idle_world) /\
  load_config (world_with_file (PyJson.dumps (JObj [("polling_rate", JInt 0)])))
  = (Ok (JObj [("polling_rate", JInt 0)]),
     world_with_file (PyJson.dumps (JObj [("polling_rate", JInt 0)]))).
Proof.
  split; [|split; [|split; [|split]]].
  - apply (poll_interval_defined_iff_rate_nonzero
             [("auto_restart", JBool false)]).
    reflexivity.
  - destruct (poll_interval_defined_iff_rate_nonzero
                [("polling_rate", JFloat 0 0)]) as (_ & Hpresent & _).
    apply (Hpresent (JFloat 0 0) (0 # 1)%Q); reflexivity.
  - destruct (poll_interval_defined_iff_rate_nonzero
                [("polling_rate", JInt (-30))]) as (_ & Hpresent & _).
    apply (Hpresent (JInt (-30)) (-30 # 1)%Q);
      [reflexivity | reflexivity | discriminate | by vm_compute].
  - destruct (poll_interval_defined_iff_rate_nonzero
                [("polling_rate", JInt 50)]) as (_ & _ & Hloop & _).
    apply (Hloop (Mapper (JObj [("polling_rate", JInt 50)]) true (Some 1%Z))
             [JOYBUTTONUP 0] [[]] fresh idle_world
             (set_button "A" false fresh) idle_world (1 / 50)%Q);
      [reflexivity | reflexivity | reflexivity | by vm_compute
      | split; discriminate].
  - apply (poll_interval_defined_iff_rate_nonzero []); reflexivity.
Defined.

(** ** Discovery *)

Lemma no_device_iteration self names rest batches w :
  running self = true ->
  find_gamepad names 0 = None ->
  discover_loop self (names :: rest) batches w
  = (auto_restart <- lift (py_get (config self) "auto_restart" (JBool true)) ;;
     if negb (truthy auto_restart) then ret Stopped
     else discover_loop self rest batches)
      (add_effects [EScan names; EPrint MsgNoGamepad; ESleep 2] w).
Proof.
  intros Hrun Hnone. cbn [discover_loop]. rewrite Hrun.
  unfold detect_gamepad. rewrite Hnone.
  unfold bind at 1 2. cbn [ret]. unfold bind at 1, print. unfold bind at 1, sleep.
  cbn. unfold add_effects, log. cbn. by rewrite <- !app_assoc.
Qed.

(** C7: when the scan finds no gamepad, [start] prints the notice and
    sleeps two seconds; with [auto_restart] false it then returns, stopped,
    having scanned once however many scans the environment would still
    answer; with [auto_restart] true (or absent) it goes round the loop
    again, which scans again. *)
Theorem no_device_stops_or_retries self names rest batches w :
  find_gamepad names 0 = None ->
  (py_get (config self) "auto_restart" (JBool true) = Ok (JBool false) ->
   start self (names :: rest) batches w
   = (Ok Stopped, add_effects [EScan names; EPrint MsgNoGamepad; ESleep 2] w) /\
   scans_of (trace (snd (start self (names :: rest) batches w)))
   = scans_of (trace w) ++ [names]) /\
  (py_get (config self) "auto_restart" (JBool true) = Ok (JBool true) ->
   start self (names :: rest) batches w
   = start self rest batches
       (add_effects [EScan names; EPrint MsgNoGamepad; ESleep 2] w) /\
   forall names' rest',
     rest = names' :: rest' ->
     find_gamepad names' 0 = None ->
     start self (names :: rest) batches w
     = start self rest' batches
         (add_effects [EScan names; EPrint MsgNoGamepad; ESleep 2;
                       EScan names'; EPrint MsgNoGamepad; ESleep 2] w)).
Proof.
  intros Hnone.
  assert (Hrun : running (set_running true self) = true) by reflexivity.
  split.
  - intros Hflag.
    assert (Hstop : start self (names :: rest) batches w
                    = (Ok Stopped,
                       add_effects [EScan names; EPrint MsgNoGamepad; ESleep 2] w)).
    { unfold start. rewrite no_device_iteration by done.
      unfold bind, lift. cbn [config set_running]. by rewrite Hflag. }
    split; [exact Hstop |].
    rewrite Hstop. cbn [snd]. unfold scans_of, add_effects. cbn [trace].
    by rewrite omap_app.
  - intros Hflag.
    assert (Hretry : forall names0 rest0 w0,
              find_gamepad names0 0 = None ->
              start self (names0 :: rest0) batches w0
              = start self rest0 batches
                  (add_effects [EScan names0; EPrint MsgNoGamepad; ESleep 2] w0)).
    { intros names0 rest0 w0 Hnone0. unfold start.
      rewrite no_device_iteration by done.
      unfold bind, lift. cbn [config set_running]. by rewrite Hflag. }
    split; [by apply Hretry |].
    intros names' rest' -> Hnone'.
    rewrite !Hretry by done. by rewrite add_effects_add_effects.
Qed.

Lemma no_device_stops_or_retries_witness :
  start (Mapper (JObj [("auto_restart", JBool false)]) false None)
    [["USB Keyboard"]; ["Xbox Wireless Controller"]] [] idle_world
  = (Ok Stopped,
     add_effects [EScan ["USB Keyboard"]; EPrint MsgNoGamepad; ESleep 2]
       idle_world) /\
  start (Mapper (JObj []) false None)
    [["USB Keyboard"]; ["Xbox Wireless Controller"]] [] idle_world
  = start (Mapper (JObj []) false None) [["Xbox Wireless Controller"]] []
      (add_effects [EScan ["USB Keyboard"]; EPrint MsgNoGamepad; ESleep 2]
         idle_world).
Proof.
  split.
  - apply (no_device_stops_or_retries
             (Mapper (JObj [("auto_restart", JBool false)]) false None)
             ["USB Keyboard"] [["Xbox Wireless Controller"]] [] idle_world);
      reflexivity.
  - apply (no_device_stops_or_retries
             (Mapper (JObj []) false None)
             ["USB Keyboard"] [["Xbox Wireless Controller"]] [] idle_world);
      reflexivity.
Defined.

(** * Further properties of the code *)

(** ** Discovery: [detect_gamepad] *)

Lemma find_gamepad_some names i0 i name :
  find_gamepad names i0 = Some (i, name) ->
  (i0 <= i < i0 + Z.of_nat (length names))%Z /\
  names !! Z.to_nat (i - i0) = Some name /\
  is_gamepad_name name = true /\
  forall j name',
    (j < Z.to_nat (i - i0))%nat -> names !! j = Some name' ->
    is_gamepad_name name' = false.
Proof.
  revert i0. induction names as [|n names IH]; intros i0 Hfind; [done |].
  cbn [find_gamepad] in Hfind.
  destruct (is_gamepad_name n) eqn:Hn.
  - injection Hfind as <- <-. rewrite Z.sub_diag. cbn [length].
    repeat split; [lia | lia | done |]. intros j name' Hj. cbn in Hj. lia.
  - destruct (IH _ Hfind) as (Hrange & Hlookup & Hname & Hfirst).
    cbn [length].
    replace (Z.to_nat (i - i0)) with (S (Z.to_nat (i - (i0 + 1)))) by lia.
    repeat split; [lia | lia | done | done |].
    intros [|j] name' Hj Hj'.
    + cbn in Hj'. by injection Hj' as <-.
    + cbn in Hj'. apply (Hfirst j); [lia | done].
Qed.

Lemma find_gamepad_none names i0 :
  find_gamepad names i0 = None <->
  Forall (fun name => is_gamepad_name name = false) names.
Proof.
  revert i0. induction names as [|n names IH]; intros i0; cbn [find_gamepad].
  - split; [constructor | done].
  - rewrite Forall_cons. destruct (is_gamepad_name n).
    + split; [done | by intros [? _]].
    + rewrite IH. tauto.
Qed.

Lemma detect_gamepad_result names w :
  fst (detect_gamepad names w) = Ok (fst <$> find_gamepad names 0).
Proof.
  unfold detect_gamepad, bind.
  by destruct (find_gamepad names 0) as [[i name]|].
Qed.

(** X1: [detect_gamepad] never raises; the index it returns is in range,
    names a joystick whose lower-cased name contains one of the keywords,
    and is the first such index; it returns [None] exactly when no name
    qualifies. *)
Theorem detect_gamepad_first_match names w :
  (exists r, fst (detect_gamepad names w) = Ok r) /\
  (forall i,
     fst (detect_gamepad names w) = Ok (Some i) ->
     (0 <= i < Z.of_nat (length names))%Z /\
     exists name,
       names !! Z.to_nat i = Some name /\
       is_gamepad_name name = true /\
       forall j name',
         (j < Z.to_nat i)%nat -> names !! j = Some name' ->
         is_gamepad_name name' = false) /\
  (fst (detect_gamepad names w) = Ok None <->
   Forall (fun name => is_gamepad_name name = false) names).
Proof.
  rewrite detect_gamepad_result. split; [eauto | split].
  - intros i Hi.
    destruct (find_gamepad names 0) as [[i' name]|] eqn:Hfind; [|done].
    cbn in Hi. injection Hi as ->.
    destruct (find_gamepad_some _ _ _ _ Hfind) as (Hrange & Hlookup & Hname & Hfirst).
    rewrite Z.sub_0_r in Hlookup, Hfirst. split; [lia | eauto].
  - rewrite <- (find_gamepad_none names 0).
    destruct (find_gamepad names 0) as [[i name]|]; cbn; split; congruence.
Qed.

Lemma detect_gamepad_first_match_witness :
  (0 <= 1 < Z.of_nat (length ["USB Keyboard"; "XBOX Pad"; "Nintendo Pro"]))%Z /\
  exists name,
    ["USB Keyboard"; "XBOX Pad"; "Nintendo Pro"] !! Z.to_nat 1 = Some name /\
    is_gamepad_name name = true /\
    forall j name',
      (j < Z.to_nat 1)%nat ->
      ["USB Keyboard"; "XBOX Pad"; "Nintendo Pro"] !! j = Some name' ->
      is_gamepad_name name' = false.
Proof.
  apply (detect_gamepad_first_match
           ["USB Keyboard"; "XBOX Pad"; "Nintendo Pro"] idle_world).
  reflexivity.
Defined.

Lemma ascii_lower_upper c : ascii_lower (ascii_upper c) = ascii_lower c.
Proof. destruct c as [[] [] [] [] [] [] [] []]; vm_compute; reflexivity. Qed.

Lemma ascii_lower_lower c : ascii_lower (ascii_lower c) = ascii_lower c.
Proof. destruct c as [[] [] [] [] [] [] [] []]; vm_compute; reflexivity. Qed.

Lemma lower_upper s : lower (upper s) = lower s.
Proof.
  unfold lower, upper. induction s as [|c s IH]; [done |].
  cbn. by rewrite ascii_lower_upper, IH.
Qed.

Lemma lower_lower s : lower (lower s) = lower s.
Proof.
  unfold lower. induction s as [|c s IH]; [done |].
  cbn. by rewrite ascii_lower_lower, IH.
Qed.

(** X2: whether a joystick name counts as a gamepad does not depend on the
    case of its ASCII letters. *)
Theorem gamepad_name_ignores_case name :
  is_gamepad_name (upper name) = is_gamepad_name name /\
  is_gamepad_name (lower name) = is_gamepad_name name.
Proof.
  unfold is_gamepad_name. by rewrite lower_upper, lower_lower.
Qed.

(** ** The button table: [get_button_name] *)

Lemma get_button_name_cases b name :
  get_button_name b = Some name ->
  (b = 0%Z /\ name = "A") \/ (b = 1%Z /\ name = "B") \/ (b = 2%Z /\ name = "X") \/
  (b = 3%Z /\ name = "Y") \/ (b = 4%Z /\ name = "LEFT_TRIGGER") \/
  (b = 5%Z /\ name = "RIGHT_TRIGGER") \/ (b = 6%Z /\ name = "SELECT") \/
  (b = 7%Z /\ name = "START") \/ (b = 8%Z /\ name = "LEFT_STICK") \/
  (b = 9%Z /\ name = "RIGHT_STICK").
Proof.
  unfold get_button_name. intros Hb.
  repeat (match type of Hb with
          | match ?x with _ => _ end = _ => destruct x
          end; try discriminate);
    injection Hb as <-; tauto.
Qed.

(** X3: the button table is defined exactly on the ids 0 to 9 and gives
    each id a name of its own, so two buttons never share a debounce
    entry. *)
Theorem get_button_name_injective b1 b2 name :
  (is_Some (get_button_name b1) <-> (0 <= b1 <= 9)%Z) /\
  (get_button_name b1 = Some name -> get_button_name b2 = Some name -> b1 = b2).
Proof.
  split; [split |].
  - intros [n Hn]. apply get_button_name_cases in Hn. lia.
  - intros Hrange.
    assert (Hb : (b1 = 0 \/ b1 = 1 \/ b1 = 2 \/ b1 = 3 \/ b1 = 4 \/ b1 = 5 \/
                  b1 = 6 \/ b1 = 7 \/ b1 = 8 \/ b1 = 9)%Z) by lia.
    repeat (destruct Hb as [-> | Hb]; [cbn; eauto |]). subst. cbn. eauto.
  - intros H1 H2.
    apply get_button_name_cases in H1. apply get_button_name_cases in H2.
    repeat (destruct H1 as [[-> ->] | H1]; [intuition congruence |]).
    intuition congruence.
Qed.

Lemma get_button_name_injective_witness : (4 = 4)%Z.
Proof.
  apply (get_button_name_injective 4 4 "LEFT_TRIGGER"); reflexivity.
Defined.

(** ** Events that emit nothing *)

(** X4: a button-up event never reads the configuration and never emits:
    it returns normally with the world unchanged, stores [False] for its
    own button and leaves every other entry and both triggers alone. *)
Theorem button_up_never_emits config b st w :
  exists st',
    handle_event config (JOYBUTTONUP b) st w = (Ok st', w) /\
    trigger_states st' = trigger_states st /\
    (forall name,
       get_button_name b = Some name ->
       button_states st' !! name = Some false) /\
    (forall name,
       get_button_name b <> Some name ->
       button_states st' !! name = button_states st !! name).
Proof.
  unfold handle_event.
  destruct (get_button_name b) as [n|] eqn:Hb.
  - rewrite (get_button_name_nonempty _ _ Hb). cbn [negb].
    eexists. split; [reflexivity |]. cbn. split; [done | split].
    + intros name [= ->]. apply lookup_insert_eq.
    + intros name Hne. apply lookup_insert_ne. congruence.
  - eexists. split; [reflexivity |]. repeat split; done.
Qed.

Lemma button_up_never_emits_witness :
  exists st',
    handle_event JNull (JOYBUTTONUP 3) fresh idle_world = (Ok st', idle_world) /\
    button_states st' !! "Y" = Some false /\
    button_states st' !! "A" = button_states fresh !! "A".
Proof.
  destruct (button_up_never_emits JNull 3 fresh idle_world)
    as (st' & Hrun & _ & Hown & Hother).
  exists st'. split; [exact Hrun | split].
  - apply Hown. reflexivity.
  - apply Hother. discriminate.
Defined.

(** X5: events outside the tables are dropped whatever the configuration
    holds: a button id without a name, an axis other than 0 to 3, a D-pad
    value within the dead zone of 0.5, and every other event type leave the
    session state and the world as they were. *)
Theorem unknown_events_are_ignored config st w :
  (forall b,
     get_button_name b = None ->
     handle_event config (JOYBUTTONDOWN b) st w = (Ok st, w) /\
     handle_event config (JOYBUTTONUP b) st w = (Ok st, w)) /\
  (forall axis v,
     (axis < 0 \/ 3 < axis)%Z ->
     handle_event config (JOYAXISMOTION axis v) st w = (Ok st, w)) /\
  (forall axis v,
     (axis = 0 \/ axis = 1)%Z ->
     (Qabs v <= 1 # 2)%Q ->
     handle_event config (JOYAXISMOTION axis v) st w = (Ok st, w)) /\
  handle_event config OTHER st w = (Ok st, w).
Proof.
  split; [|split; [|split]].
  - intros b Hb. unfold handle_event. by rewrite Hb.
  - intros axis v Haxis. unfold handle_event.
    replace (axis =? 2)%Z with false by lia.
    replace (axis =? 3)%Z with false by lia.
    replace (axis =? 0)%Z with false by lia.
    replace (axis =? 1)%Z with false by lia.
    reflexivity.
  - intros axis v Haxis Hv. apply Qlt_bool_false in Hv.
    destruct Haxis as [-> | ->]; cbn; by rewrite Hv.
  - reflexivity.
Qed.

Lemma unknown_events_are_ignored_witness :
  handle_event default_config (JOYBUTTONDOWN 12) fresh idle_world
  = (Ok fresh, idle_world) /\
  handle_event default_config (JOYAXISMOTION 5 1) fresh idle_world
  = (Ok fresh, idle_world) /\
  handle_event default_config (JOYAXISMOTION 1 (- 1 # 2)) fresh idle_world
  = (Ok fresh, idle_world).
Proof.
  destruct (unknown_events_are_ignored default_config fresh idle_world)
    as (Hbutton & Haxis & Hdead & _).
  split; [|split].
  - apply Hbutton. reflexivity.
  - apply Haxis. lia.
  - apply Hdead; [lia | discriminate].
Defined.

(** ** Emission under configurations of other shapes *)

Lemma py_subscript_button_mappings config kvs button_name v :
  py_get config "button_mappings" (JObj []) = Ok (JObj kvs) ->
  dict_get kvs button_name = Some v ->
  py_subscript config "button_mappings" = Ok (JObj kvs).
Proof.
  intros Hget Hsome.
  destruct config as [| | | | | |cfg]; try discriminate.
  cbn in Hget. cbn [py_subscript].
  destruct (dict_get cfg "button_mappings") as [table|].
  - by injection Hget as ->.
  - injection Hget as <-. discriminate.
Qed.

(** X6: a button mapped to a list or a dict makes the emission raise
    [TypeError]: the console line is printed, the key lookup then fails
    outside the [try] block of [press_key], nothing reaches the injector
    and the exception escapes. *)
Theorem unhashable_mapping_raises config kvs button_name v w :
  py_get config "button_mappings" (JObj []) = Ok (JObj kvs) ->
  dict_get kvs button_name = Some v ->
  hashable v = false ->
  handle_button_press config button_name w
  = (Raise TypeError, log (EPrint (MsgButtonPressed button_name v)) w).
Proof.
  intros Hget Hsome Hv. unfold handle_button_press, bind, lift.
  rewrite Hget. cbn [py_in]. rewrite Hsome.
  rewrite (py_subscript_button_mappings _ _ _ _ Hget Hsome).
  cbn [py_subscript]. rewrite Hsome. unfold print, press_key, bind, lift.
  by destruct v.
Qed.

Lemma unhashable_mapping_raises_witness :
  handle_button_press
    (JObj [("button_mappings", JObj [("A", JArr [JStr "ctrl"; JStr "c"])])])
    "A" idle_world
  = (Raise TypeError,
     log (EPrint (MsgButtonPressed "A" (JArr [JStr "ctrl"; JStr "c"]))) idle_world).
Proof.
  apply (unhashable_mapping_raises _ [("A", JArr [JStr "ctrl"; JStr "c"])]);
    reflexivity.
Defined.

(** X7: when the configuration is not a dict, or its [button_mappings] is
    not a dict, an emission never reaches the injector or the console: the
    world is unchanged and the call either does nothing or raises
    [AttributeError] or [TypeError]. *)
Theorem emission_without_mapping_dict config button_name w :
  (forall kvs, py_get config "button_mappings" (JObj []) <> Ok (JObj kvs)) ->
  snd (handle_button_press config button_name w) = w /\
  (fst (handle_button_press config button_name w) = Ok tt \/
   fst (handle_button_press config button_name w) = Raise AttributeError \/
   fst (handle_button_press config button_name w) = Raise TypeError).
Proof.
  intros Hshape. unfold handle_button_press, bind, lift.
  destruct (py_get config "button_mappings" (JObj [])) as [mappings|e] eqn:Hget.
  - destruct config as [| | | | | |cfg]; try discriminate.
    cbn in Hget. cbn [py_subscript].
    destruct (dict_get cfg "button_mappings") as [table|] eqn:Htable;
      [| injection Hget as <-; by destruct (Hshape [])].
    injection Hget as ->.
    destruct mappings as [| | | | | xs |kvs];
      try (cbn; auto; fail); [| | by destruct (Hshape kvs)].
    + cbn [py_in]. destruct (str_contains button_name s); cbn; auto.
    + cbn [py_in].
      destruct (existsb _ xs); cbn; auto.
  - destruct config; try discriminate; cbn in Hget; injection Hget as <-;
      cbn; auto.
Qed.

Lemma emission_without_mapping_dict_witness :
  snd (handle_button_press (JObj [("button_mappings", JStr "ABXY")]) "A"
         refusing_injector) = refusing_injector /\
  (fst (handle_button_press (JObj [("button_mappings", JStr "ABXY")]) "A"
          refusing_injector) = Ok tt \/
   fst (handle_button_press (JObj [("button_mappings", JStr "ABXY")]) "A"
          refusing_injector) = Raise AttributeError \/
   fst (handle_button_press (JObj [("button_mappings", JStr "ABXY")]) "A"
          refusing_injector) = Raise TypeError).
Proof.
  apply (emission_without_mapping_dict
           (JObj [("button_mappings", JStr "ABXY")]) "A" refusing_injector).
  intros kvs. discriminate.
Defined.

(** ** What running the mapper leaves alone *)

Lemma add_effects_nil w : add_effects [] w = w.
Proof. destruct w. unfold add_effects. cbn. by rewrite app_nil_r. Qed.

Lemma log_add_effects e w : log e w = add_effects [e] w.
Proof. reflexivity. Qed.

Section Appends.
Context (P : effect -> Prop).

Lemma appends_ret {A} (a : A) : appends P (ret a).
Proof. intros w. exists []. by rewrite add_effects_nil. Qed.

Lemma appends_raise {A} e : appends P (raise (A := A) e).
Proof. intros w. exists []. by rewrite add_effects_nil. Qed.

Lemma appends_lift {A} (r : result A) : appends P (lift r).
Proof. intros w. exists []. by rewrite add_effects_nil. Qed.

Lemma appends_bind {A B} (c : M A) (k : A -> M B) :
  appends P c -> (forall a, appends P (k a)) -> appends P (bind c k).
Proof.
  intros Hc Hk w. unfold bind.
  destruct (Hc w) as (es & Hes & HP).
  destruct (c w) as [[a|e] w1]; cbn [snd] in Hes; subst w1.
  - destruct (Hk a (add_effects es w)) as (es' & Hes' & HP').
    exists (es ++ es'). rewrite Hes', add_effects_add_effects.
    split; [done | by apply Forall_app].
  - by exists es.
Qed.

Lemma appends_try_except {A} (body : M A) (handler : exn -> M A) :
  appends P body -> (forall e, appends P (handler e)) ->
  appends P (try_except body handler).
Proof.
  intros Hc Hk w. unfold try_except.
  destruct (Hc w) as (es & Hes & HP).
  destruct (body w) as [[a|e] w1]; cbn [snd] in Hes; subst w1.
  - by exists es.
  - destruct (Hk e (add_effects es w)) as (es' & Hes' & HP').
    exists (es ++ es'). rewrite Hes', add_effects_add_effects.
    split; [done | by apply Forall_app].
Qed.

Lemma appends_print m : P (EPrint m) -> appends P (print m).
Proof. intros HP w. exists [EPrint m]. split; [done | by constructor]. Qed.

Lemma appends_sleep seconds : P (ESleep seconds) -> appends P (sleep seconds).
Proof.
  intros HP w. unfold sleep. cbv zeta.
  destruct (_ || _); [| destruct (Qlt_bool seconds 0)].
  - exists []. by rewrite add_effects_nil.
  - exists []. by rewrite add_effects_nil.
  - exists [ESleep seconds]. split; [done | by constructor].
Qed.

Lemma appends_press k : P (EPress k) -> appends P (controller_press k).
Proof. intros HP w. exists [EPress k]. split; [done | by constructor]. Qed.

Lemma appends_release k : P (ERelease k) -> appends P (controller_release k).
Proof. intros HP w. exists [ERelease k]. split; [done | by constructor]. Qed.

End Appends.

Ltac appends_step :=
  first
    [ apply appends_ret | apply appends_raise | apply appends_lift
    | apply appends_print; exact I | apply appends_sleep; exact I
    | apply appends_press; exact I | apply appends_release; exact I
    | apply appends_bind; [| intros ?]
    | apply appends_try_except; [| intros ?]
    | match goal with
      | |- appends _ (match ?x with _ => _ end) => destruct x
      end ].

Lemma handle_button_press_appends config button_name :
  appends is_io (handle_button_press config button_name).
Proof. unfold handle_button_press, press_key. repeat appends_step. Qed.

Lemma handle_event_appends config ev st :
  appends is_io (handle_event config ev st).
Proof.
  unfold handle_event. cbv zeta.
  repeat first [apply handle_button_press_appends | appends_step].
Qed.

Lemma handle_events_appends config evs st :
  appends is_io (handle_events config evs st).
Proof.
  revert st. induction evs as [|ev evs IH]; intros st; cbn [handle_events].
  - apply appends_ret.
  - apply appends_bind; [apply handle_event_appends | done].
Qed.

Lemma poll_loop_appends self batches st :
  appends is_io (poll_loop self batches st).
Proof.
  revert st. induction batches as [|evs batches IH]; intros st;
    cbn [poll_loop]; destruct (running self); try apply appends_ret.
  apply appends_bind; [apply handle_events_appends | intros st'].
  repeat first [apply IH | appends_step].
Qed.

Lemma print_all_appends ms : appends is_io (print_all ms).
Proof.
  induction ms as [|m ms IH]; cbn [print_all]; [apply appends_ret |].
  apply appends_bind; [by apply appends_print | done].
Qed.

Lemma run_gamepad_loop_appends self names batches :
  appends is_io (run_gamepad_loop self names batches).
Proof.
  unfold run_gamepad_loop.
  repeat first [apply poll_loop_appends | apply print_all_appends | appends_step].
Qed.

(** X8: handling events, and the whole active loop around it, never
    touches the configuration file or the injector's behaviour and never
    scans for joysticks: all it does to the world is append console, clock
    and injector effects to the trace. *)
Theorem active_loop_only_appends_io self names batches evs st w :
  (exists es,
     snd (handle_events (config self) evs st w) = add_effects es w /\
     Forall is_io es) /\
  (exists es,
     snd (run_gamepad_loop self names batches w) = add_effects es w /\
     Forall is_io es) /\
  fs_file (snd (run_gamepad_loop self names batches w)) = fs_file w /\
  scans_of (trace (snd (run_gamepad_loop self names batches w)))
  = scans_of (trace w).
Proof.
  destruct (run_gamepad_loop_appends self names batches w) as (es & Hes & Hio).
  split; [apply handle_events_appends | split; [eauto | rewrite Hes; split]].
  - reflexivity.
  - unfold scans_of, add_effects. cbn [trace]. rewrite omap_app.
    replace (omap _ es) with (@nil (list string)); [by rewrite app_nil_r |].
    clear Hes. induction Hio as [|e es He _ IH]; [done |].
    destruct e; cbn; try done. 
Qed.

(** ** Well-formed configurations never raise *)

Lemma config_ok_mappings config :
  config_ok config = true ->
  exists kvs,
    py_get config "button_mappings" (JObj []) = Ok (JObj kvs) /\
    forallb (fun kv => hashable (snd kv)) kvs = true.
Proof.
  destruct config as [| | | | | |cfg]; try discriminate. cbn.
  intros [Hm _]%andb_prop.
  destruct (dict_get cfg "button_mappings") as [[| | | | | |table]|];
    try discriminate; eauto.
Qed.

Lemma config_ok_threshold config :
  config_ok config = true ->
  exists thr t,
    py_get config "trigger_threshold" (JFloat 5 1) = Ok thr /\
    as_number thr = Some t.
Proof.
  destruct config as [| | | | | |cfg]; try discriminate. cbn.
  intros [_ Ht]%andb_prop.
  destruct (dict_get cfg "trigger_threshold") as [thr|]; [|by eauto].
  destruct (as_number thr) as [t|] eqn:Hnum; [eauto | discriminate].
Qed.

Lemma dict_get_forallb (f : json -> bool) kvs k v :
  forallb (fun kv => f (snd kv)) kvs = true ->
  dict_get kvs k = Some v ->
  f v = true.
Proof.
  induction kvs as [|[k' v'] kvs IH]; [done |]. cbn.
  intros [Hv Hrest]%andb_prop. destruct (String.eqb k k'); [|by auto].
  by intros [= <-].
Qed.

Lemma get_key_from_string_hashable v :
  hashable v = true -> exists k, get_key_from_string v = Ok k.
Proof. destruct v; try discriminate; cbn; eauto. Qed.

Lemma handle_button_press_ok config button_name w :
  config_ok config = true ->
  exists w', handle_button_press config button_name w = (Ok tt, w').
Proof.
  intros (kvs & Hget & Hvalues)%config_ok_mappings.
  destruct (dict_get kvs button_name) as [v|] eqn:Hv.
  - destruct (get_key_from_string_hashable v) as [k Hk];
      [by apply (dict_get_forallb hashable kvs button_name) |].
    rewrite (handle_button_press_mapped _ _ _ _ _ _ Hget Hv Hk). eauto.
  - rewrite (handle_button_press_unmapped _ _ _ _ Hget Hv). eauto.
Qed.

Lemma tracked_set_trigger name b st : tracked st -> tracked (set_trigger name b st).
Proof.
  intros [Hl Hr]. unfold tracked, set_trigger. cbn.
  split; rewrite lookup_insert; case_decide; eauto.
Qed.

Lemma tracked_set_button name b st : tracked st -> tracked (set_button name b st).
Proof. done. Qed.

Lemma tracked_fresh : tracked fresh.
Proof. split; by eexists. Qed.

(** Event handling when every emission returns normally and relates the
    world before to the world after by a reflexive, transitive [R]. *)
Section EmissionsReturn.
Context (config thr : json) (t : Q) (R : world -> world -> Prop).
Context (Hthr : py_get config "trigger_threshold" (JFloat 5 1) = Ok thr).
Context (Hnum : as_number thr = Some t).
Context (R_refl : forall w, R w w).
Context (R_trans : forall w1 w2 w3, R w1 w2 -> R w2 w3 -> R w1 w3).
Context (Hemit : forall button_name w,
           exists w', handle_button_press config button_name w = (Ok tt, w')
                      /\ R w w').

Lemma emit_then_ret_returns button_name (st : session) w :
  tracked st ->
  exists st' w',
    (handle_button_press config button_name ;; ret st) w = (Ok st', w')
    /\ tracked st' /\ R w w'.
Proof using Hemit.
  intros Hst. destruct (Hemit button_name w) as (w' & Hw' & HR).
  exists st, w'. by rewrite (bind_ok _ _ _ _ _ Hw').
Qed.

Lemma handle_event_returns ev st w :
  tracked st ->
  exists st' w',
    handle_event config ev st w = (Ok st', w') /\ tracked st' /\ R w w'.
Proof using Hthr Hnum R_refl Hemit.
  intros Htracked.
  destruct ev as [b | b | axis v |]; unfold handle_event.
  - destruct (get_button_name b) as [name|]; [|by eauto].
    destruct (negb (String.eqb name "")); [|by eauto].
    destruct (button_states st !! name); [by eauto |].
    by apply emit_then_ret_returns, tracked_set_button.
  - destruct (get_button_name b) as [name|]; [|by eauto].
    destruct (negb (String.eqb name "")); [|by eauto].
    eexists _, _. split; [reflexivity |].
    split; [by apply tracked_set_button | done].
  - cbv zeta. destruct ((axis =? 2)%Z || (axis =? 3)%Z).
    + unfold bind at 1, lift. rewrite Hthr.
      unfold bind at 1, abs_gt. rewrite Hnum.
      destruct (Qlt_bool t (Qabs v)).
      * assert (Hheld : exists held,
                  get_trigger (if (axis =? 2)%Z then "left" else "right") st
                  = Ok held).
        { unfold get_trigger. destruct Htracked as [[l Hl] [r Hr]].
          destruct (axis =? 2)%Z; [rewrite Hl | rewrite Hr]; eauto. }
        destruct Hheld as [held Hheld]. unfold bind at 1. rewrite Hheld.
        destruct held; cbn [negb]; [by eauto |].
        by apply emit_then_ret_returns, tracked_set_trigger.
      * eexists _, _. split; [reflexivity |].
        split; [by apply tracked_set_trigger | done].
    + repeat match goal with
             | |- context [if ?b then _ else _] => destruct b
             end; eauto using emit_then_ret_returns.
  - eauto.
Qed.

Lemma handle_events_returns evs st w :
  tracked st ->
  exists st' w',
    handle_events config evs st w = (Ok st', w') /\ tracked st' /\ R w w'.
Proof using Hthr Hnum R_refl R_trans Hemit.
  revert st w. induction evs as [|ev evs IH]; intros st w Hst.
  - eexists _, _. split; [reflexivity | split; [done | apply R_refl]].
  - destruct (handle_event_returns ev st w Hst) as (st1 & w1 & Hev & Hst1 & HR1).
    cbn [handle_events]. rewrite (bind_ok _ _ _ _ _ Hev).
    destruct (IH st1 w1 Hst1) as (st' & w' & Hrun & Hst' & HR).
    exists st', w'. eauto.
Qed.

End EmissionsReturn.

Lemma handle_events_ok config evs st w :
  config_ok config = true ->
  tracked st ->
  exists st' w', handle_events config evs st w = (Ok st', w') /\ tracked st'.
Proof.
  intros Hok Hst.
  destruct (config_ok_threshold _ Hok) as (thr & t & Hthr & Hnum).
  destruct (handle_events_returns config thr t (fun _ _ => True) Hthr Hnum) with
    (evs := evs) (st := st) (w := w) as (st' & w' & Hrun & Hst' & _);
    [done | done | | done | by eauto].
  intros name w0. destruct (handle_button_press_ok config name w0 Hok). eauto.
Qed.

(** X9: under a well-formed configuration (a dict whose button mappings
    are scalars and whose threshold is a number), handling events never
    raises, whatever the injector does and whatever events arrive; from a
    fresh session both triggers stay tracked, so the lookup of a trigger
    state cannot fail. *)
Theorem well_formed_config_never_raises config evs w :
  config_ok config = true ->
  exists st',
    fst (handle_events config evs fresh w) = Ok st' /\ tracked st'.
Proof.
  intros Hok.
  destruct (handle_events_ok config evs fresh w Hok tracked_fresh)
    as (st' & w' & Hrun & Hst').
  exists st'. by rewrite Hrun.
Qed.

Lemma well_formed_config_never_raises_witness :
  exists st',
    fst (handle_events default_config
           [JOYBUTTONDOWN 0; JOYAXISMOTION 3 1; JOYAXISMOTION 0 (- 1);
            JOYBUTTONUP 0] fresh refusing_injector) = Ok st' /\
    tracked st'.
Proof.
  apply (well_formed_config_never_raises default_config
           [JOYBUTTONDOWN 0; JOYAXISMOTION 3 1; JOYAXISMOTION 0 (- 1);
            JOYBUTTONUP 0] refusing_injector).
  reflexivity.
Defined.

(** X10: with a well-formed configuration that maps no button (the empty
    dict that [load_config] falls back to, or an empty [button_mappings]),
    the mapper is inert: any sequence of events is handled without raising
    and leaves the world exactly as it was. *)
Theorem config_without_mappings_is_inert config evs w :
  config_ok config = true ->
  py_get config "button_mappings" (JObj []) = Ok (JObj []) ->
  exists st', handle_events config evs fresh w = (Ok st', w).
Proof.
  intros Hok Hnone.
  destruct (config_ok_threshold _ Hok) as (thr & t & Hthr & Hnum).
  destruct (handle_events_returns config thr t eq Hthr Hnum) with
    (evs := evs) (st := fresh) (w := w) as (st' & w' & Hrun & _ & <-).
  - done.
  - congruence.
  - intros name w0. exists w0.
    by rewrite (handle_button_press_unmapped _ [] _ _ Hnone).
  - apply tracked_fresh.
  - eauto.
Qed.

Lemma config_without_mappings_is_inert_witness :
  exists st',
    handle_events (JObj [])
      [JOYBUTTONDOWN 0; JOYAXISMOTION 2 1; JOYAXISMOTION 1 (- 1)] fresh
      refusing_injector
    = (Ok st', refusing_injector).
Proof.
  apply (config_without_mappings_is_inert (JObj [])
           [JOYBUTTONDOWN 0; JOYAXISMOTION 2 1; JOYAXISMOTION 1 (- 1)]
           refusing_injector);
    reflexivity.
Defined.

(** ** The active loop: [run_gamepad_loop] *)

Lemma poll_loop_ok self batches st w seconds :
  config_ok (config self) = true ->
  poll_interval (config self) = Ok seconds ->
  (0 <= seconds <= 9000000000)%Q ->
  running self = true ->
  tracked st ->
  exists st' w',
    poll_loop self batches st w = (Ok (Polling st'), w') /\ tracked st'.
Proof.
  intros Hok Hrate Hpos Hrun. revert st w.
  induction batches as [|evs batches IH]; intros st w Hst;
    cbn [poll_loop]; rewrite Hrun.
  - eexists _, _. by split.
  - destruct (handle_events_ok _ evs st w Hok Hst) as (st1 & w1 & Hevs & Hst1).
    rewrite (bind_ok _ _ _ _ _ Hevs). unfold bind at 1, lift. rewrite Hrate.
    rewrite (bind_ok _ _ _ _ _ (sleep_nonnegative _ _ Hpos)). by apply IH.
Qed.

(** X11: while no events arrive the active loop does nothing but sleep
    once per poll for [1.0 / polling_rate] seconds, when that quotient is
    defined and lies between 0 and 9e9 seconds (a length [time.sleep]
    accepts), and it is still polling when the environment stops
    answering. *)
Theorem idle_loop_sleeps_once_per_poll self n st w seconds :
  running self = true ->
  poll_interval (config self) = Ok seconds ->
  (0 <= seconds <= 9000000000)%Q ->
  poll_loop self (replicate n []) st w
  = (Ok (Polling st), add_effects (replicate n (ESleep seconds)) w).
Proof.
  intros Hrun Hrate Hpos. revert w.
  induction n as [|n IH]; intros w; cbn [replicate poll_loop]; rewrite Hrun.
  - by rewrite add_effects_nil.
  - cbn [handle_events]. rewrite bind_ret_l. unfold bind at 1, lift.
    rewrite Hrate. rewrite (bind_ok _ _ _ _ _ (sleep_nonnegative _ _ Hpos)).
    rewrite IH, log_add_effects, add_effects_add_effects. reflexivity.
Qed.

Lemma idle_loop_sleeps_once_per_poll_witness :
  poll_loop (Mapper default_config true (Some 1%Z)) (replicate 3 []) fresh
    idle_world
  = (Ok (Polling fresh),
     add_effects (replicate 3 (ESleep (1 / 60)%Q)) idle_world).
Proof.
  apply (idle_loop_sleeps_once_per_poll
           (Mapper default_config true (Some 1%Z)) 3 fresh idle_world (1 / 60)%Q);
    [reflexivity | by vm_compute | split; discriminate].
Defined.

(** X12: what a bad [polling_rate] does to the loop, once its first
    batch of events is handled and before any sleep.  A value that is not a
    number makes the division raise [TypeError]; an int too large for a
    float makes it raise [OverflowError]; a negative rate whose quotient is
    no less than -9e9 seconds makes [time.sleep] raise [ValueError]; a rate
    so small that the quotient reaches 1e10 seconds, of either sign, makes
    [time.sleep] raise [OverflowError]. *)
Theorem bad_polling_rate_raises self kvs rate evs rest st w st1 w1 :
  config self = JObj kvs ->
  dict_get kvs "polling_rate" = Some rate ->
  running self = true ->
  handle_events (config self) evs st w = (Ok st1, w1) ->
  (as_number rate = None ->
   poll_loop self (evs :: rest) st w = (Raise TypeError, w1)) /\
  (float_overflows rate = true ->
   poll_loop self (evs :: rest) st w = (Raise OverflowError, w1)) /\
  (forall r,
     as_number rate = Some r -> float_overflows rate = false ->
     (r < 0)%Q -> (- 9000000000 <= 1 / r)%Q ->
     poll_loop self (evs :: rest) st w = (Raise ValueError, w1)) /\
  (forall r,
     as_number rate = Some r -> float_overflows rate = false ->
     ~ (r == 0)%Q -> (10000000000 <= Qabs (1 / r))%Q ->
     poll_loop self (evs :: rest) st w = (Raise OverflowError, w1)).
Proof.
  intros Hcfg Hrate Hrun Hevs.
  assert (Hloop : poll_loop self (evs :: rest) st w
                  = (seconds <- lift (poll_interval (config self)) ;;
                     sleep seconds ;; poll_loop self rest st1) w1).
  { cbn [poll_loop]. rewrite Hrun. by rewrite (bind_ok _ _ _ _ _ Hevs). }
  rewrite Hloop. unfold bind at 1, lift, poll_interval.
  rewrite Hcfg. cbn [py_get]. rewrite Hrate.
  split; [|split; [|split]].
  - by intros ->.
  - intros Hbig. destruct rate; try discriminate. cbn [as_number].
    by rewrite Hbig.
  - intros r -> -> Hneg Hlo.
    assert (Hnz : Qeq_bool r 0 = false).
    { destruct (Qeq_bool r 0) eqn:E; [|done].
      apply Qeq_bool_iff in E. rewrite E in Hneg. by apply Qlt_irrefl in Hneg. }
    rewrite Hnz. unfold bind.
    by rewrite (sleep_negative _ _ Hlo (Qdiv_negative _ Hneg)).
  - intros r -> -> Hnz Hlong.
    destruct (Qeq_bool r 0) eqn:E; [by apply Qeq_bool_iff in E |].
    unfold bind. by rewrite (sleep_too_long _ _ Hlong).
Qed.

Lemma bad_polling_rate_raises_witness :
  poll_loop (Mapper (JObj [("polling_rate", JStr "60")]) true (Some 1%Z))
    [[]; []] fresh idle_world
  = (Raise TypeError, idle_world) /\
  poll_loop (Mapper (JObj [("polling_rate", JInt (10 ^ 309))]) true (Some 1%Z))
    [[]; []] fresh idle_world
  = (Raise OverflowError, idle_world) /\
  poll_loop (Mapper (JObj [("polling_rate", JInt (-60))]) true (Some 1%Z))
    [[]; []] fresh idle_world
  = (Raise ValueError, idle_world) /\
  poll_loop (Mapper (JObj [("polling_rate", JFloat 1 11)]) true (Some 1%Z))
    [[]; []] fresh idle_world
  = (Raise OverflowError, idle_world).
Proof.
  split; [|split; [|split]].
  - destruct (bad_polling_rate_raises
                (Mapper (JObj [("polling_rate", JStr "60")]) true (Some 1%Z))
                [("polling_rate", JStr "60")] (JStr "60") [] [[]] fresh
                idle_world fresh idle_world) as [Hnan _];
      [reflexivity | reflexivity | reflexivity | reflexivity |].
    apply Hnan. reflexivity.
  - destruct (bad_polling_rate_raises
                (Mapper (JObj [("polling_rate", JInt (10 ^ 309))]) true (Some 1%Z))
                [("polling_rate", JInt (10 ^ 309))] (JInt (10 ^ 309)) [] [[]]
                fresh idle_world fresh idle_world) as (_ & Hbig & _);
      [reflexivity | reflexivity | reflexivity | reflexivity |].
    apply Hbig. by vm_compute.
  - destruct (bad_polling_rate_raises
                (Mapper (JObj [("polling_rate", JInt (-60))]) true (Some 1%Z))
                [("polling_rate", JInt (-60))] (JInt (-60)) [] [[]] fresh
                idle_world fresh idle_world) as (_ & _ & Hneg & _);
      [reflexivity | reflexivity | reflexivity | reflexivity |].
    apply (Hneg (-60 # 1)%Q);
      [reflexivity | by vm_compute | reflexivity | discriminate].
  - destruct (bad_polling_rate_raises
                (Mapper (JObj [("polling_rate", JFloat 1 11)]) true (Some 1%Z))
                [("polling_rate", JFloat 1 11)] (JFloat 1 11) [] [[]] fresh
                idle_world fresh idle_world) as (_ & _ & _ & Hlong);
      [reflexivity | reflexivity | reflexivity | reflexivity |].
    apply (Hlong (1 # 100000000000)%Q);
      [by vm_compute | reflexivity | discriminate | discriminate].
Defined.

(** ** The controller: [start] *)

Lemma detect_gamepad_found names i name w :
  find_gamepad names 0 = Some (i, name) ->
  detect_gamepad names w
  = (Ok (Some i), add_effects [EScan names; EPrint (MsgFoundGamepad name)] w).
Proof.
  intros Hfind. unfold detect_gamepad, bind. rewrite Hfind.
  unfold print, ret, add_effects, log. cbn. by rewrite <- app_assoc.
Qed.

Lemma detect_gamepad_missing names w :
  find_gamepad names 0 = None ->
  detect_gamepad names w = (Ok None, add_effects [EScan names] w).
Proof. intros Hfind. unfold detect_gamepad, bind. by rewrite Hfind. Qed.

Lemma print_all_ok ms w : exists w', print_all ms w = (Ok tt, w').
Proof.
  revert w. induction ms as [|m ms IH]; intros w; cbn [print_all]; [by eexists |].
  unfold bind at 1, print. apply IH.
Qed.

Lemma run_gamepad_loop_ok self names batches w seconds i name :
  config_ok (config self) = true ->
  poll_interval (config self) = Ok seconds ->
  (0 <= seconds <= 9000000000)%Q ->
  running self = true ->
  gamepad self = Some i ->
  (0 <= i)%Z ->
  names !! Z.to_nat i = Some name ->
  exists r w', run_gamepad_loop self names batches w = (Ok r, w').
Proof.
  intros Hok Hrate Hpos Hrun Hpad Hi Hname. unfold run_gamepad_loop.
  rewrite Hpad. destruct (i =? 0)%Z; [by eexists _, _ |].
  assert (Hjoy : joystick_name names i = Ok name).
  { unfold joystick_name. replace (i <? 0)%Z with false by lia. by rewrite Hname. }
  unfold bind at 1, lift. rewrite Hjoy.
  unfold bind at 1, print. unfold bind at 1.
  destruct (config_ok_mappings _ Hok) as (kvs & Hget & _).
  unfold bind at 1. rewrite Hget. unfold bind at 1. cbn [py_items].
  destruct (print_all_ok (map (fun '(button, k) => MsgMapping button k) kvs)
              (log (EPrint MsgMappingsHeader) (log (EPrint (MsgConnected name)) w)))
    as [w1 Hw1].
  rewrite (bind_ok _ _ _ _ _ Hw1). unfold bind at 1.
  destruct (poll_loop_ok self batches fresh (log (EPrint MsgExitHint) w1) seconds
              Hok Hrate Hpos Hrun tracked_fresh) as (st' & w' & Hloop & _).
  rewrite Hloop. eauto.
Qed.

Lemma discover_loop_ok self scans batches w seconds :
  config_ok (config self) = true ->
  poll_interval (config self) = Ok seconds ->
  (0 <= seconds <= 9000000000)%Q ->
  running self = true ->
  exists r w', discover_loop self scans batches w = (Ok r, w').
Proof.
  revert self w. induction scans as [|names rest IH];
    intros self w Hok Hrate Hpos Hrun; cbn [discover_loop]; rewrite Hrun;
    [by eexists _, _ |].
  destruct (find_gamepad names 0) as [[i name]|] eqn:Hfind.
  - rewrite (bind_ok _ _ _ _ _ (detect_gamepad_found _ _ _ _ Hfind)).
    destruct (find_gamepad_some _ _ _ _ Hfind) as (Hrange & Hlookup & _).
    rewrite Z.sub_0_r in Hlookup.
    destruct (run_gamepad_loop_ok (set_gamepad i self) names batches
                (add_effects [EScan names; EPrint (MsgFoundGamepad name)] w)
                seconds i name) as (r & w1 & Hloop); try done; [lia |].
    rewrite (bind_ok _ _ _ _ _ Hloop).
    destruct r as [|st]; [by apply IH | by eexists _, _].
  - rewrite (bind_ok _ _ _ _ _ (detect_gamepad_missing _ _ Hfind)).
    unfold bind at 1, print.
    rewrite (bind_ok _ _ _ _ _ (sleep_nonnegative 2 _ ltac:(split; discriminate))).
    destruct (config self) as [| | | | | |kvs] eqn:Hcfg; try discriminate.
    unfold bind at 1, lift. cbn [py_get].
    destruct (negb _); [by eexists _, _ |].
    apply IH; by rewrite ?Hcfg.
Qed.

(** X13: under a well-formed configuration whose polling interval is
    defined and lies between 0 and 9e9 seconds, [start] never raises, whatever joysticks come and go, whatever events
    arrive and whatever the injector does: it ends stopped, or is still
    discovering or polling when the environment stops answering. *)
Theorem start_never_raises self scans batches w seconds :
  config_ok (config self) = true ->
  poll_interval (config self) = Ok seconds ->
  (0 <= seconds <= 9000000000)%Q ->
  exists r w', start self scans batches w = (Ok r, w').
Proof.
  intros Hok Hrate Hpos. unfold start.
  by apply (discover_loop_ok _ _ _ _ seconds).
Qed.

Lemma start_never_raises_witness :
  exists r w',
    start (Mapper default_config false None)
      [["USB Keyboard"]; ["USB Keyboard"; "Xbox Wireless Controller"]]
      [[JOYBUTTONDOWN 0; JOYAXISMOTION 2 1]; [JOYBUTTONUP 0]]
      refusing_injector
    = (Ok r, w').
Proof.
  apply (start_never_raises (Mapper default_config false None) _ _ _ (1 / 60)%Q);
    [reflexivity | by vm_compute | split; discriminate].
Defined.

Lemma discover_loop_first_joystick self firsts batches w :
  running self = true ->
  Forall (fun p : string * list string => is_gamepad_name p.1 = true) firsts ->
  exists self',
    discover_loop self (map (fun p => p.1 :: p.2) firsts) batches w
    = (Ok Discovering,
       add_effects
         (concat (map (fun p => [EScan (p.1 :: p.2); EPrint (MsgFoundGamepad p.1)])
                      firsts)) w) /\
    config self' = config self.
Proof.
  intros Hrun Hfirsts. revert self w Hrun.
  induction Hfirsts as [|[name others] firsts Hname _ IH]; intros self w Hrun;
    cbn [map concat discover_loop]; rewrite Hrun.
  - exists self. by rewrite add_effects_nil.
  - cbn [fst snd] in *.
    assert (Hfind : find_gamepad (name :: others) 0 = Some (0%Z, name))
      by (cbn [find_gamepad]; by rewrite Hname).
    rewrite (bind_ok _ _ _ _ _ (detect_gamepad_found _ _ _ _ Hfind)).
    unfold run_gamepad_loop. cbn [gamepad set_gamepad Z.eqb]. rewrite bind_ret_l.
    destruct (IH (set_gamepad 0 self)
                (add_effects [EScan (name :: others); EPrint (MsgFoundGamepad name)] w)
                Hrun) as (self' & Hloop & Hcfg).
    exists self'. rewrite Hloop, add_effects_add_effects. by split.
Qed.

(** X14: a gamepad that is the first joystick is never used.  Its index
    0 is falsy, so [run_gamepad_loop] returns at its guard and [start]
    scans again at once: as long as scans put a gamepad first, the mapper
    only scans and announces the gamepad; it consumes no event, sleeps
    never and injects nothing. *)
Theorem gamepad_at_index_zero_is_never_used self firsts batches w :
  Forall (fun p : string * list string => is_gamepad_name p.1 = true) firsts ->
  start self (map (fun p => p.1 :: p.2) firsts) batches w
  = (Ok Discovering,
     add_effects
       (concat (map (fun p => [EScan (p.1 :: p.2); EPrint (MsgFoundGamepad p.1)])
                    firsts)) w).
Proof.
  intros Hfirsts. unfold start.
  by destruct (discover_loop_first_joystick (set_running true self) firsts
                 batches w eq_refl Hfirsts) as (self' & Hloop & _).
Qed.

Lemma gamepad_at_index_zero_is_never_used_witness :
  start (Mapper default_config false None)
    [["Xbox Wireless Controller"; "USB Keyboard"]; ["Xbox Wireless Controller"]]
    [[JOYBUTTONDOWN 0]] idle_world
  = (Ok Discovering,
     add_effects
       [EScan ["Xbox Wireless Controller"; "USB Keyboard"];
        EPrint (MsgFoundGamepad "Xbox Wireless Controller");
        EScan ["Xbox Wireless Controller"];
        EPrint (MsgFoundGamepad "Xbox Wireless Controller")] idle_world).
Proof.
  apply (gamepad_at_index_zero_is_never_used
           (Mapper default_config false None)
           [("Xbox Wireless Controller", ["USB Keyboard"]);
            ("Xbox Wireless Controller", [])]
           [[JOYBUTTONDOWN 0]] idle_world).
  repeat (constructor; [reflexivity |]); constructor.
Defined.

Lemma bind_never {A B} (c : M A) (k : A -> M B) w (b : B) :
  (forall a w', fst (k a w') <> Ok b) -> fst (bind c k w) <> Ok b.
Proof.
  intros Hk. unfold bind. destruct (c w) as [[a|e] w']; [apply Hk | done].
Qed.

Lemma poll_loop_not_returned self batches st w :
  running self = true -> fst (poll_loop self batches st w) <> Ok Returned.
Proof.
  intros Hrun. revert st w.
  induction batches as [|evs batches IH]; intros st w;
    cbn [poll_loop]; rewrite Hrun; [done |].
  repeat (apply bind_never; intros ? ?). apply IH.
Qed.

Lemma run_gamepad_loop_not_returned self names batches w i :
  running self = true ->
  gamepad self = Some i ->
  i <> 0%Z ->
  fst (run_gamepad_loop self names batches w) <> Ok Returned.
Proof.
  intros Hrun Hpad Hi. unfold run_gamepad_loop. rewrite Hpad.
  replace (i =? 0)%Z with false by lia.
  repeat (apply bind_never; intros ? ?). by apply poll_loop_not_returned.
Qed.

(** X15: once a gamepad at an index other than 0 has been found, [start]
    never goes back to discovery: however many further scans the
    environment would answer, none is made, and [start] does not come back
    stopped or discovering (it is polling, or it raised). *)
Theorem active_session_never_rescans self names rest batches w i name :
  find_gamepad names 0 = Some (i, name) ->
  i <> 0%Z ->
  start self (names :: rest) batches w = start self [names] batches w /\
  fst (start self (names :: rest) batches w) <> Ok Stopped /\
  fst (start self (names :: rest) batches w) <> Ok Discovering.
Proof.
  intros Hfind Hi.
  assert (Hshape : forall scans,
            start self (names :: scans) batches w
            = (r <- run_gamepad_loop
                      (set_gamepad i (set_running true self)) names batches ;;
               match r with
               | Returned =>
                   discover_loop (set_gamepad i (set_running true self)) scans batches
               | Polling st => ret (Active st)
               end)
                (add_effects [EScan names; EPrint (MsgFoundGamepad name)] w)).
  { intros scans. unfold start. cbn [discover_loop running set_running].
    by rewrite (bind_ok _ _ _ _ _ (detect_gamepad_found _ _ _ _ Hfind)). }
  rewrite !Hshape. unfold bind.
  pose proof (run_gamepad_loop_not_returned
                (set_gamepad i (set_running true self)) names batches
                (add_effects [EScan names; EPrint (MsgFoundGamepad name)] w) i
                eq_refl eq_refl Hi) as Hnot.
  destruct (run_gamepad_loop _ names batches _) as [[[|st]|e] w1]; done.
Qed.

Lemma active_session_never_rescans_witness :
  start (Mapper default_config false None)
    [["USB Keyboard"; "Xbox Wireless Controller"]; []; []]
    [[JOYBUTTONDOWN 0]] idle_world
  = start (Mapper default_config false None)
      [["USB Keyboard"; "Xbox Wireless Controller"]]
      [[JOYBUTTONDOWN 0]] idle_world.
Proof.
  apply (active_session_never_rescans (Mapper default_config false None)
           ["USB Keyboard"; "Xbox Wireless Controller"] [[]; []]
           [[JOYBUTTONDOWN 0]] idle_world 1 "Xbox Wireless Controller");
    [reflexivity | discriminate].
Defined.

(** X16: [auto_restart] is tested for truth.  While no scan finds a
    gamepad and the flag is truthy (or absent), [start] keeps scanning,
    each miss costing the notice and a 2-second sleep and nothing else;
    with any falsy flag (false, 0, null, an empty string) the first miss
    ends [start]. *)
Theorem no_gamepad_scans_until_flag_is_falsy self flag scans batches w :
  py_get (config self) "auto_restart" (JBool true) = Ok flag ->
  Forall (fun names => find_gamepad names 0 = None) scans ->
  (truthy flag = true ->
   start self scans batches w
   = (Ok Discovering,
      add_effects
        (concat (map (fun names => [EScan names; EPrint MsgNoGamepad; ESleep 2])
                     scans)) w)) /\
  (truthy flag = false ->
   forall names rest,
     scans = names :: rest ->
     start self scans batches w
     = (Ok Stopped, add_effects [EScan names; EPrint MsgNoGamepad; ESleep 2] w)).
Proof.
  intros Hflag Hscans. split; intros Htruth.
  - unfold start. revert w.
    induction Hscans as [|names scans Hnone _ IH]; intros w.
    + cbn. by rewrite add_effects_nil.
    + rewrite no_device_iteration by done.
      unfold bind, lift. cbn [config set_running]. rewrite Hflag, Htruth.
      cbn [negb map concat]. by rewrite IH, add_effects_add_effects.
  - intros names rest ->. apply Forall_cons in Hscans as [Hnone _].
    unfold start. rewrite no_device_iteration by done.
    unfold bind, lift. cbn [config set_running]. by rewrite Hflag, Htruth.
Qed.

Lemma no_gamepad_scans_until_flag_is_falsy_witness :
  start (Mapper (JObj [("auto_restart", JInt 0)]) false None)
    [["USB Keyboard"]; []] [] idle_world
  = (Ok Stopped,
     add_effects [EScan ["USB Keyboard"]; EPrint MsgNoGamepad; ESleep 2]
       idle_world) /\
  start (Mapper (JObj [("auto_restart", JStr "no")]) false None)
    [["USB Keyboard"]; []] [] idle_world
  = (Ok Discovering,
     add_effects [EScan ["USB Keyboard"]; EPrint MsgNoGamepad; ESleep 2;
                  EScan []; EPrint MsgNoGamepad; ESleep 2] idle_world).
Proof.
  split.
  - destruct (no_gamepad_scans_until_flag_is_falsy
                (Mapper (JObj [("auto_restart", JInt 0)]) false None) (JInt 0)
                [["USB Keyboard"]; []] [] idle_world) as [_ Hstop];
      [reflexivity | repeat (constructor; [reflexivity |]); constructor |].
    apply (Hstop eq_refl ["USB Keyboard"] [[]]). reflexivity.
  - apply (no_gamepad_scans_until_flag_is_falsy
             (Mapper (JObj [("auto_restart", JStr "no")]) false None) (JStr "no")
             [["USB Keyboard"]; []] [] idle_world);
      [reflexivity | repeat (constructor; [reflexivity |]); constructor
      | reflexivity].
Defined.

(** X17: a configuration that is not a dict (a file holding a JSON list,
    say) is fatal at the first [self.config.get]: with no gamepad, [start]
    prints the notice, sleeps two seconds and raises [AttributeError] when
    it reads [auto_restart]; with a gamepad at an index other than 0, it
    raises when it is about to print the mappings. *)
Theorem non_dict_config_raises_AttributeError self names rest batches w :
  (forall kvs, config self <> JObj kvs) ->
  (find_gamepad names 0 = None ->
   start self (names :: rest) batches w
   = (Raise AttributeError,
      add_effects [EScan names; EPrint MsgNoGamepad; ESleep 2] w)) /\
  (forall i name,
     find_gamepad names 0 = Some (i, name) ->
     i <> 0%Z ->
     start self (names :: rest) batches w
     = (Raise AttributeError,
        add_effects [EScan names; EPrint (MsgFoundGamepad name);
                     EPrint (MsgConnected name); EPrint MsgMappingsHeader] w)).
Proof.
  intros Hshape.
  assert (Hget : forall k d, py_get (config self) k d = Raise AttributeError).
  { intros k d. destruct (config self) as [| | | | | |kvs] eqn:Hcfg; try done.
    by destruct (Hshape kvs). }
  split.
  - intros Hnone. unfold start. rewrite no_device_iteration by done.
    unfold bind, lift. cbn [config set_running]. by rewrite Hget.
  - intros i name Hfind Hi. unfold start. cbn [discover_loop running set_running].
    rewrite (bind_ok _ _ _ _ _ (detect_gamepad_found _ _ _ _ Hfind)).
    destruct (find_gamepad_some _ _ _ _ Hfind) as (Hrange & Hlookup & _).
    rewrite Z.sub_0_r in Hlookup.
    unfold run_gamepad_loop. cbn [gamepad set_gamepad config set_running].
    replace (i =? 0)%Z with false by lia.
    unfold joystick_name. replace (i <? 0)%Z with false by lia. rewrite Hlookup.
    unfold bind, lift, print. rewrite Hget. cbn.
    unfold add_effects, log. cbn. by rewrite <- !app_assoc.
Qed.

Lemma non_dict_config_raises_AttributeError_witness :
  start (Mapper (JArr []) false None) [["USB Keyboard"]; []] [] idle_world
  = (Raise AttributeError,
     add_effects [EScan ["USB Keyboard"]; EPrint MsgNoGamepad; ESleep 2]
       idle_world).
Proof.
  apply (non_dict_config_raises_AttributeError
           (Mapper (JArr []) false None) ["USB Keyboard"] [[]] [] idle_world);
    [discriminate | reflexivity].
Defined.

(** ** Session state *)

(** X18: an event changes only the state it is about.  Button events
    leave both triggers alone; axis events leave every button entry alone;
    an event on one trigger axis leaves the other trigger alone, and D-pad
    and other axes leave both. *)
Theorem events_touch_only_their_own_state config ev st w st' w' :
  handle_event config ev st w = (Ok st', w') ->
  match ev with
  | JOYBUTTONDOWN _ | JOYBUTTONUP _ => trigger_states st' = trigger_states st
  | JOYAXISMOTION axis _ =>
      button_states st' = button_states st /\
      (axis <> 2%Z ->
       trigger_states st' !! "left" = trigger_states st !! "left") /\
      (axis <> 3%Z ->
       trigger_states st' !! "right" = trigger_states st !! "right")
  | OTHER => st' = st
  end.
Proof.
  intros H. unfold handle_event, bind, ret, lift in H.
  destruct ev as [b | b | axis v |].
  - repeat case_match; by simplify_eq.
  - repeat case_match; by simplify_eq.
  - cbv zeta in H.
    destruct (axis =? 2)%Z eqn:H2; [apply Z.eqb_eq in H2 as -> |];
      [| destruct (axis =? 3)%Z eqn:H3; [apply Z.eqb_eq in H3 as -> |]];
      cbn [orb Z.eqb] in H;
      repeat case_match; simplify_eq; cbn;
      repeat split; try done; intros _;
      by rewrite lookup_insert_ne.
  - by simplify_eq.
Qed.

Lemma events_touch_only_their_own_state_witness :
  button_states (set_trigger "left" true fresh) = button_states fresh /\
  (2%Z <> 2%Z ->
   trigger_states (set_trigger "left" true fresh) !! "left"
   = trigger_states fresh !! "left") /\
  (2%Z <> 3%Z ->
   trigger_states (set_trigger "left" true fresh) !! "right"
   = trigger_states fresh !! "right").
Proof.
  apply (events_touch_only_their_own_state (JObj []) (JOYAXISMOTION 2 1)
           fresh idle_world (set_trigger "left" true fresh) idle_world).
  reflexivity.
Defined.

(** ** The configuration file, further *)

Section ConfigFile.
Context `{JsonCodec}.

(** X19: a file that exists is taken as it is.  When it can be read and
    its text parses, [load_config] returns the parsed value, whatever it
    is, without checking or completing it and without touching the world;
    when it cannot be read, the [PermissionError] of [open] is not among
    the exceptions caught and escapes. *)
Theorem load_config_existing_file w text :
  fs_file w = Some text ->
  (fs_readable w = false -> load_config w = (Raise PermissionError, w)) /\
  (fs_readable w = true ->
   forall cfg, json_load text = Ok cfg -> load_config w = (Ok cfg, w)).
Proof.
  intros Hfile. unfold load_config, try_except, bind, read_file, lift.
  rewrite Hfile. split.
  - by intros ->.
  - intros -> cfg Hcfg. by rewrite Hcfg.
Qed.

(** X20: [save_config] never raises.  A file that cannot be written is
    left as it was and the failure is printed once; and when the file is
    absent and cannot be written, [load_config] still returns the default
    configuration, the file staying absent. *)
Theorem save_config_never_raises cfg w :
  fst (save_config cfg w) = Ok tt /\
  (fs_writable w = true ->
   snd (save_config cfg w) = set_file (json_dump cfg) w) /\
  (fs_writable w = false ->
   snd (save_config cfg w) = log (EPrint MsgSaveError) w /\
   (fs_file w = None ->
    load_config w = (Ok default_config, log (EPrint MsgSaveError) w))).
Proof.
  split; [|split].
  - destruct (fs_writable w) eqn:Hw.
    + by rewrite save_config_writable.
    + by rewrite save_config_unwritable.
  - intros Hw. by rewrite save_config_writable.
  - intros Hw. split; [by rewrite save_config_unwritable |].
    intros Hnone. unfold load_config. rewrite Hnone. unfold bind.
    by rewrite save_config_unwritable.
Qed.

End ConfigFile.

Lemma load_config_existing_file_witness :
  load_config (world_with_file (PyJson.dumps (JArr [JInt 1; JNull])))
  = (Ok (JArr [JInt 1; JNull]),
     world_with_file (PyJson.dumps (JArr [JInt 1; JNull]))).
Proof.
  apply (load_config_existing_file
           (world_with_file (PyJson.dumps (JArr [JInt 1; JNull])))
           (PyJson.dumps (JArr [JInt 1; JNull])));
    reflexivity.
Defined.

Lemma save_config_never_raises_witness :
  load_config (World None true false (fun _ => false) (fun _ => false) [])
  = (Ok default_config,
     log (EPrint MsgSaveError)
       (World None true false (fun _ => false) (fun _ => false) [])).
Proof.
  apply (save_config_never_raises (H := PyJson.codec) default_config
           (World None true false (fun _ => false) (fun _ => false) []));
    reflexivity.
Defined.

(** X21: constructing the mapper is idempotent on a machine without a
    configuration file: the first [__init__] writes the default file, and a
    second one reads it back to the same mapper and changes nothing. *)
Theorem init_twice_is_init_once w :
  fs_file w = None ->
  fs_writable w = true ->
  fs_readable w = true ->
  fst (init w) = Ok (Mapper default_config false None) /\
  init (snd (init w)) = (Ok (Mapper default_config false None), snd (init w)).
Proof.
  intros Hnone Hw Hr.
  assert (Hfirst : init w = (Ok (Mapper default_config false None),
                             set_file (json_dump default_config) w)).
  { unfold init. unfold bind at 1. unfold load_config. rewrite Hnone.
    unfold bind. by rewrite save_config_writable. }
  rewrite Hfirst. cbn [fst snd]. split; [done |].
  unfold init, bind, load_config, try_except, bind, read_file.
  cbn [fs_file fs_readable set_file]. rewrite Hr.
  cbn [json_load json_dump PyJson.codec].
  by rewrite default_config_reads_back.
Qed.

Lemma init_twice_is_init_once_witness :
  fst (init idle_world) = Ok (Mapper default_config false None) /\
  init (snd (init idle_world))
  = (Ok (Mapper default_config false None), snd (init idle_world)).
Proof. apply (init_twice_is_init_once idle_world); reflexivity. Defined.

(** ** Dispatch, in full *)

(** X22: what [press_key] does, effect by effect, for a key string that
    resolves to [k].  When the injector works: press, a sleep of 50 ms,
    release, and nothing else.  When release fails: the same, then one
    error line.  When press fails: the press attempt and one error line,
    with no sleep.  In every case the call returns normally. *)
Theorem press_key_effects key_string k w :
  get_key_from_string key_string = Ok k ->
  (press_raises w k = false -> release_raises w k = false ->
   press_key key_string w
   = (Ok tt, add_effects [EPress k; ESleep (1 # 20); ERelease k] w)) /\
  (press_raises w k = false -> release_raises w k = true ->
   press_key key_string w
   = (Ok tt, add_effects [EPress k; ESleep (1 # 20); ERelease k;
                          EPrint (MsgKeyError key_string)] w)) /\
  (press_raises w k = true ->
   press_key key_string w
   = (Ok tt, add_effects [EPress k; EPrint (MsgKeyError key_string)] w)).
Proof.
  intros Hk. rewrite (press_key_spec _ _ _ Hk). unfold dispatch_effects.
  repeat split; intros; by repeat match goal with H : _ = _ |- _ => rewrite H end.
Qed.

Lemma press_key_effects_witness :
  press_key (JStr "f11") idle_world
  = (Ok tt,
     add_effects [EPress (Named Key.f11); ESleep (1 # 20);
                  ERelease (Named Key.f11)] idle_world).
Proof.
  apply (press_key_effects (JStr "f11") (Named Key.f11) idle_world);
    reflexivity.
Defined.

(** X23: the shoulder buttons 4 and 5 and the trigger axes 2 and 3 emit
    the same names but keep separate debounce state: from a fresh session,
    button 4 going down and then axis 2 going past the threshold are two
    [LEFT_TRIGGER] emissions. *)
Theorem shoulder_button_and_trigger_axis_both_emit config thr t v w :
  py_get config "trigger_threshold" (JFloat 5 1) = Ok thr ->
  as_number thr = Some t ->
  (t < Qabs v)%Q ->
  handle_events config [JOYBUTTONDOWN 4; JOYAXISMOTION 2 v] fresh w
  = (handle_button_press config "LEFT_TRIGGER" ;;
     handle_button_press config "LEFT_TRIGGER" ;;
     ret (set_trigger "left" true (set_button "LEFT_TRIGGER" true fresh))) w.
Proof.
  intros Hthr Hnum Hv. cbn [handle_events].
  change (handle_event config (JOYBUTTONDOWN 4) fresh)
    with (handle_button_press config "LEFT_TRIGGER" ;;
          ret (set_button "LEFT_TRIGGER" true fresh)).
  rewrite bind_assoc. apply bind_ext. intros [] w1. rewrite bind_ret_l.
  rewrite (bind_cong_l _ _ _ _
             (trigger_rising config thr t Hthr Hnum 2 "left" "LEFT_TRIGGER"
                (or_introl (conj eq_refl (conj eq_refl eq_refl)))
                v (set_button "LEFT_TRIGGER" true fresh) w1 Hv eq_refl)).
  rewrite bind_assoc. apply bind_ext. intros [] w2. by rewrite !bind_ret_l.
Qed.

Lemma shoulder_button_and_trigger_axis_both_emit_witness :
  handle_events default_config [JOYBUTTONDOWN 4; JOYAXISMOTION 2 (- 1)] fresh
    idle_world
  = (handle_button_press default_config "LEFT_TRIGGER" ;;
     handle_button_press default_config "LEFT_TRIGGER" ;;
     ret (set_trigger "left" true (set_button "LEFT_TRIGGER" true fresh)))
      idle_world.
Proof.
  apply (shoulder_button_and_trigger_axis_both_emit
           default_config (JFloat 5 1) (5 # 10) (- 1) idle_world);
    reflexivity.
Defined.
